(** * mcp_subfinder_server: the protocol dispatcher and the enumeration orchestrator

    A shallow embedding of
    - [internal/subfinder/wrapper.go] ([RunEnumeration]),
    - the [mcp] package: the JSON-RPC types and error table, and the handlers
      [HandleInitialize], [HandleToolsList], [HandleToolsCall],
      [ProcessSingleRequest],
    - package [main] ([mcpHandler]: the single/batch dispatch),
    - package [server] ([MCPHandler]: one request at a time),
    followed by the properties of the specification that these functions decide
    and by further properties of the same code.

    What lies outside the repository is a field of [Env]: the subfinder runner
    (the enumeration provider), the moments at which contexts are cancelled or
    expire, jsoniter's decoders and [strings.EqualFold].  Calls to the logger
    are left out: they have no effect on what the functions return. *)

From Stdlib Require Import ZArith QArith Ascii String List Sorting.Sorted.
From stdpp Require Import base option strings gmap list sorting pretty.

Set Warnings "-register-all".
Local Open Scope Z_scope.

(** ** Go values *)

(** [int] and [int64] are modelled by [Z]; the only arithmetic the code does on
    them that can leave the 64-bit range is the product that turns seconds
    into a [time.Duration] (nanoseconds, [int64]), which wraps. *)
Definition wrap64 (z : Z) : Z := (z + 2 ^ 63) `mod` 2 ^ 64 - 2 ^ 63.

Definition time_Second : Z := 1000000000.

(** [time.Duration(n) * time.Second] *)
Definition seconds (n : Z) : Z := wrap64 (n * time_Second).

(** A [float64] obtained from a JSON number is finite; it is modelled by the
    rational it denotes.  The code only compares it with 0 and converts it to
    [int]. *)
Definition float64 : Type := Q.

(** [f > 0] *)
Definition float64_gt0 (f : float64) : bool := negb (Qle_bool f 0).

(** [int(f)]: truncation towards zero.  Outside the range of [int64] the Go
    specification leaves the result to the implementation; the value written
    here is the one amd64 produces. *)
Definition float64_to_int (f : float64) : Z :=
  let z := Z.quot (Qnum f) (Z.pos (Qden f)) in
  if (- 2 ^ 63 <=? z) && (z <? 2 ^ 63) then z else - 2 ^ 63.

(** A value of type [interface{}] as jsoniter builds it from JSON text. *)
Inductive jvalue : Type :=
| JNull
| JBool (b : bool)
| JNumber (f : float64)
| JString (s : string)
| JArray (l : list jvalue)
| JObject (fields : list (string * jvalue)).

(** [error] values: the two errors of package [context], whatever the runner
    reports, and [fmt.Errorf] with a [%w] verb at the end of its format. *)
Inductive error : Type :=
| context_Canceled
| context_DeadlineExceeded
| runner_error (msg : string)
| Errorf_w (prefix : string) (wrapped : error).

(** [err.Error()] *)
Fixpoint Error_string (e : error) : string :=
  match e with
  | context_Canceled => "context canceled"
  | context_DeadlineExceeded => "context deadline exceeded"
  | runner_error msg => msg
  | Errorf_w prefix wrapped => prefix +:+ Error_string wrapped
  end.

(** ** Package [context] *)

(** Every context made by [WithCancel] or [WithTimeout] is a node of its own;
    [External] nodes were made by the caller, [Derived] ones by the code
    below, numbered in the order of their creation. *)
Inductive ctx_tag : Type :=
| External (n : nat)
| Derived (n : nat).

Global Instance ctx_tag_eq_dec : EqDecision ctx_tag.
Proof. solve_decision. Defined.

Inductive Context : Type :=
| Background
| CtxCancel (parent : Context) (tag : ctx_tag)
| CtxTimeout (parent : Context) (d : Z) (tag : ctx_tag).

Global Instance Context_eq_dec : EqDecision Context.
Proof. solve_decision. Defined.

(** Why a context node fired: its cancel function was called, or its deadline
    passed. *)
Inductive cause : Type := Canceled | DeadlineExceeded.

Definition cause_error (c : cause) : error :=
  match c with
  | Canceled => context_Canceled
  | DeadlineExceeded => context_DeadlineExceeded
  end.

(** [ctx.Deadline()] reports a deadline when the context or one of its
    ancestors was made by [WithTimeout]. *)
Fixpoint hasDeadline (c : Context) : bool :=
  match c with
  | Background => false
  | CtxCancel parent _ => hasDeadline parent
  | CtxTimeout _ _ _ => true
  end.

(** The nodes on the path from a context up to [Background]. *)
Fixpoint ctx_nodes (c : Context) : list ctx_tag :=
  match c with
  | Background => []
  | CtxCancel parent tag => tag :: ctx_nodes parent
  | CtxTimeout parent _ tag => tag :: ctx_nodes parent
  end.

(** [sched tag = Some (t, c)]: the node fires at time [t] for the reason [c].
    A context is done from the first moment one of the nodes on its path has
    fired, and its [Err()] is that node's reason (an ancestor wins a tie). *)
Fixpoint ctxFire (sched : ctx_tag → option (nat * cause)) (c : Context)
  : option (nat * cause) :=
  match c with
  | Background => None
  | CtxCancel parent tag | CtxTimeout parent _ tag =>
      match ctxFire sched parent, sched tag with
      | Some (tp, cp), Some (tc, cc) =>
          if (tc <? tp)%nat then Some (tc, cc) else Some (tp, cp)
      | Some p, None => Some p
      | None, own => own
      end
  end.

(** [ctx.Err()] at time [t]; [None] is Go's [nil], and [ctx.Done()] is closed
    exactly when the result is not [None]. *)
Definition ctxErrAt (sched : ctx_tag → option (nat * cause)) (t : nat)
    (c : Context) : option error :=
  match ctxFire sched c with
  | Some (t0, why) => if (t0 <=? t)%nat then Some (cause_error why) else None
  | None => None
  end.

(** ** Package [mcp]: JSON-RPC structures *)

Definition RawMessage : Type := string.

Record Request : Type := mkRequest {
  req_JSONRPC : string;
  req_ID : option RawMessage;
  req_Method : string;
  req_Params : RawMessage
}.

Record RPCError : Type := mkRPCError {
  Code : Z;
  Message : string;
  Data : option jvalue
}.

Definition ParseErrorCode : Z := -32700.
Definition InvalidRequestCode : Z := -32600.
Definition MethodNotFoundCode : Z := -32601.
Definition InvalidParamsCode : Z := -32602.
Definition InternalErrorCode : Z := -32603.

Definition ErrParse : RPCError := mkRPCError ParseErrorCode "Parse error" None.
Definition ErrInvalidRequest : RPCError :=
  mkRPCError InvalidRequestCode "Invalid Request" None.
Definition ErrMethodNotFound : RPCError :=
  mkRPCError MethodNotFoundCode "Method not found" None.
Definition ErrInvalidParams : RPCError :=
  mkRPCError InvalidParamsCode "Invalid params" None.
Definition ErrInternal : RPCError :=
  mkRPCError InternalErrorCode "Internal error" None.

Definition SupportedProtocolVersion : string := "0.3".

Record InitializeParams : Type := mkInitializeParams {
  ip_ProtocolVersion : string
}.

Record InitializeResult : Type := mkInitializeResult {
  ir_Name : string;
  ir_Version : string;
  ir_ProtocolVersion : string
}.

Record Tool : Type := mkTool {
  tool_Name : string;
  tool_Title : string;
  tool_Description : string;
  tool_InputSchema : jvalue;
  tool_SupportsBinary : bool;
  tool_RequiresAPIKeys : bool
}.

Record ToolsListResult : Type := mkToolsListResult {
  Tools : list Tool
}.

Record ToolCallParams : Type := mkToolCallParams {
  tcp_Name : string;
  tcp_Arguments : gmap string jvalue;
  tcp_Binary : list ascii
}.

(** The two kinds of value the handlers put in [ToolCallResult.Content]. *)
Inductive content : Type :=
| ContentItem (type text : string)
| ResourceItem (type mimeType uri blob : string).

Record ToolCallResult : Type := mkToolCallResult {
  Content : list content;
  IsError : bool
}.

(** What the handlers store in [Response.Result] (an [interface{}]). *)
Inductive result : Type :=
| InitializeResultV (r : InitializeResult)
| ToolsListResultV (r : ToolsListResult)
| ToolCallResultV (r : ToolCallResult).

Record Response : Type := mkResponse {
  resp_JSONRPC : string;
  resp_ID : option RawMessage;
  resp_Result : option result;
  resp_Error : option RPCError
}.

(** ** Package [subfinder]: configuration and runner options *)

Record SubfinderConfig : Type := mkSubfinderConfig {
  ProviderConfigPath : string;
  Timeout : Z;
  MaxDepth : Z;
  SourcesFilter : string;
  ExcludeSourcesFilter : string;
  Recursive : bool
}.

(** [runner.Options] as [RunEnumeration] fills it ([Resolvers] stays nil and
    has no field here).  [Sources] and [ExcludeSources] hold the
    comma-separated filter from which the code builds the
    [goflags.StringSlice] (entry by entry, each trimmed); the empty string
    stands for the field left unset. *)
Record RunnerOptions : Type := mkRunnerOptions {
  Silent : bool;
  RemoveWildcard : bool;
  opt_Timeout : Z;
  MaxEnumerationTime : Z;
  Threads : Z;
  All : bool;
  CaptureSources : bool;
  ProviderConfig : string;
  Verbose : bool;
  Sources : string;
  ExcludeSources : string
}.

(** The provider's answer: discovered subdomain ↦ the sources that saw it. *)
Abbreviation ResultMap := (gmap string (gset string)).

(** ** The world outside the repository *)

(** What the code does to the outside, in order. *)
Inductive event : Type :=
| EvEnumerate (ctx : Context) (domain : string) (opts : RunnerOptions)
| EvSleep (d : Z).

Record World : Type := mkWorld {
  next_ctx : nat;
  trace : list event
}.

(** Time is counted in events. *)
Definition now (w : World) : nat := length (trace w).

Record Env : Type := mkEnv {
  (** [strings.EqualFold] *)
  EqualFold : string → string → bool;
  (** [runner.NewRunner]: the error, if the runner cannot be built *)
  NewRunner : RunnerOptions → option error;
  (** what a runner's [EnumerateSingleDomainWithCtx] returns when called at
      the given time *)
  provider : nat → Context → string → RunnerOptions → ResultMap * option error;
  (** when, and why, each context node fires *)
  sched : ctx_tag → option (nat * cause);
  (** [jsoniter.Unmarshal] at the four types the code decodes into; [None]
      is a non-nil error *)
  UnmarshalRequest : string → option Request;
  UnmarshalBatch : string → option (list Request);
  UnmarshalInitializeParams : RawMessage → option InitializeParams;
  UnmarshalToolCallParams : RawMessage → option ToolCallParams
}.

(** Code that acts on the world. *)
Definition M (A : Type) : Type := World → A * World.

Global Instance M_ret : MRet M := λ A a w, (a, w).
Global Instance M_bind : MBind M :=
  λ A B f m w, let '(a, w') := m w in f a w'.

(** [context.WithTimeout(parent, d)] *)
Definition WithTimeout (parent : Context) (d : Z) : M Context :=
  λ w, (CtxTimeout parent d (Derived (next_ctx w)),
        mkWorld (S (next_ctx w)) (trace w)).

(** [time.Sleep(d)] *)
Definition Sleep (d : Z) : M unit :=
  λ w, (tt, mkWorld (next_ctx w) (trace w ++ [EvSleep d])).

(** [r.EnumerateSingleDomainWithCtx(ctx, domain, writers)] on a runner built
    from [opts] *)
Definition EnumerateSingleDomainWithCtx (E : Env) (opts : RunnerOptions)
    (ctx : Context) (domain : string) : M (ResultMap * option error) :=
  λ w, (provider E (now w) ctx domain opts,
        mkWorld (next_ctx w) (trace w ++ [EvEnumerate ctx domain opts])).

(** [ctx.Err()], read now *)
Definition ctxErr (E : Env) (ctx : Context) : M (option error) :=
  λ w, (ctxErrAt (sched E) (now w) ctx, w).

(** ** [RunEnumeration] (internal/subfinder/wrapper.go; the line numbers are
       those of this file) *)

Definition maxRetries : nat := 3.
Definition maxSubdomainsToProcess : nat := 10.

Definition commonPrefixes : list string :=
  ["www"; "mail"; "api"; "dev"; "blog"; "shop"; "app"; "support"; "help";
   "portal"].

(** Lines 28-30: a non-positive timeout becomes 120. *)
Definition effectiveTimeout (config : SubfinderConfig) : Z :=
  if Timeout config <=? 0 then 120 else Timeout config.

(** Lines 32-60: [runnerOpts]. *)
Definition runnerOpts (config : SubfinderConfig) : RunnerOptions :=
  {| Silent := false;
     RemoveWildcard := true;
     opt_Timeout := effectiveTimeout config;
     MaxEnumerationTime := effectiveTimeout config;
     Threads := 40;
     All := if decide (SourcesFilter config = "") then true else false;
     CaptureSources := true;
     ProviderConfig := ProviderConfigPath config;
     Verbose := true;
     Sources := SourcesFilter config;
     ExcludeSources := ExcludeSourcesFilter config |}.

(** Lines 84-128: the retry loop, [remaining] iterations before
    [attempt <= maxRetries] fails.  [break] in the [ctx.Done()] case of the
    [select] leaves the [select] statement; the [for] loop goes on. *)
Fixpoint retryLoop (E : Env) (opts : RunnerOptions) (ctx : Context)
    (domain : string) (remaining attempt : nat)
    (resultMap : ResultMap) (enumErr : option error)
  : M (ResultMap * option error) :=
  match remaining with
  | O => mret (resultMap, enumErr)
  | S remaining' =>
      '(resultMap, enumErr) ← EnumerateSingleDomainWithCtx E opts ctx domain;
      if bool_decide (enumErr = None) && bool_decide (0 < size resultMap)%nat
      then mret (resultMap, enumErr)
      else
        done ← ctxErr E ctx;
        match done with
        | Some ctxErr =>
            let enumErr :=
              match enumErr with None => Some ctxErr | Some e => Some e end in
            retryLoop E opts ctx domain remaining' (S attempt) resultMap enumErr
        | None =>
            _ ← (if bool_decide (attempt < maxRetries)%nat
                  then Sleep (2 * time_Second) else mret tt);
            retryLoop E opts ctx domain remaining' (S attempt) resultMap enumErr
        end
  end.

(** Lines 134-142: the keys other than the queried domain, sorted.  Go ranges
    over the map in an unspecified order; [sort.Strings] makes the outcome
    independent of it. *)
Definition sort_Strings : list string → list string := merge_sort String.le.

Definition collectSubdomains (E : Env) (domain : string) (resultMap : ResultMap)
  : list string :=
  sort_Strings
    (filter (λ subdomain, EqualFold E subdomain domain = false)
            (elements (dom resultMap))).

(** Lines 214-223: one probe's results merged into [allSubdomains]. *)
Definition mergeProbe (E : Env) (subdomain : string) (recResultMap : ResultMap)
    (allSubdomains : gset string) : gset string :=
  foldl (λ all recSubdomain,
           if EqualFold E recSubdomain subdomain then all
           else if bool_decide (recSubdomain ∈ all) then all
           else {[ recSubdomain ]} ∪ all)
        allSubdomains (elements (dom recResultMap)).

(** Lines 191-224: the loop over the frontier, entered at index [i]. *)
Fixpoint recursiveLoop (E : Env) (recursiveOpts : RunnerOptions)
    (recursiveTimeout : Z) (i : nat) (subdomains : list string)
    (allSubdomains : gset string) : M (gset string) :=
  match subdomains with
  | [] => mret allSubdomains
  | subdomain :: rest =>
      if bool_decide (maxSubdomainsToProcess ≤ i)%nat then mret allSubdomains
      else
        recursiveCtx ← WithTimeout Background (seconds recursiveTimeout);
        '(recResultMap, recErr) ←
          EnumerateSingleDomainWithCtx E recursiveOpts recursiveCtx subdomain;
        match recErr with
        | Some _ =>
            recursiveLoop E recursiveOpts recursiveTimeout (S i) rest
              allSubdomains
        | None =>
            recursiveLoop E recursiveOpts recursiveTimeout (S i) rest
              (mergeProbe E subdomain recResultMap allSubdomains)
        end
  end.

(** Lines 178-181. *)
Definition recursiveTimeoutOf (config : SubfinderConfig) : Z :=
  let recursiveTimeout := Z.quot (effectiveTimeout config) 2 in
  if recursiveTimeout <? 30 then 30 else recursiveTimeout.

(** Lines 183-185. *)
Definition recursiveOptsOf (config : SubfinderConfig) : RunnerOptions :=
  let o := runnerOpts config in
  {| Silent := Silent o;
     RemoveWildcard := RemoveWildcard o;
     opt_Timeout := recursiveTimeoutOf config;
     MaxEnumerationTime := recursiveTimeoutOf config;
     Threads := Threads o;
     All := All o;
     CaptureSources := CaptureSources o;
     ProviderConfig := ProviderConfig o;
     Verbose := Verbose o;
     Sources := Sources o;
     ExcludeSources := ExcludeSources o |}.

(** Lines 156-232: the recursive pass over the sorted first-pass list.  (The
    local [maxDepth] of lines 173-176 is never read again.) *)
Definition recursivePass (E : Env) (config : SubfinderConfig)
    (subdomains : list string) : M (list string) :=
  let subdomains :=
    if bool_decide (maxSubdomainsToProcess < length subdomains)%nat
    then take maxSubdomainsToProcess subdomains
         ++ drop maxSubdomainsToProcess subdomains
    else subdomains in
  let allSubdomains : gset string := list_to_set subdomains in
  all ← match NewRunner E (recursiveOptsOf config) with
        | Some _ => mret allSubdomains
        | None =>
            recursiveLoop E (recursiveOptsOf config) (recursiveTimeoutOf config)
              0 subdomains allSubdomains
        end;
  mret (sort_Strings (elements all)).

(** Lines 234-245. *)
Definition commonSubdomains (domain : string) : list string :=
  (λ prefix, prefix +:+ "." +:+ domain) <$> commonPrefixes.

(** Lines 72-76: a context without a deadline gets one. *)
Definition deriveCtx (ctx : Context) (config : SubfinderConfig) : M Context :=
  if hasDeadline ctx then mret ctx
  else WithTimeout ctx (seconds (effectiveTimeout config)).

(** Lines 134-245: from the result map of the retry loop to the list that is
    returned. *)
Definition postProcess (E : Env) (domain : string) (config : SubfinderConfig)
    (resultMap : ResultMap) : M (list string) :=
  let subdomains := collectSubdomains E domain resultMap in
  subdomains ←
    (if Recursive config
        && bool_decide (0 < length subdomains)%nat
        && bool_decide (1 < MaxDepth config)
     then recursivePass E config subdomains
     else mret subdomains);
  mret (if bool_decide (length subdomains = 0%nat)
        then subdomains ++ commonSubdomains domain
        else subdomains).

Definition RunEnumeration (E : Env) (ctx : Context) (domain : string)
    (config : SubfinderConfig) : M (error + list string) :=
  match NewRunner E (runnerOpts config) with
  | Some err =>
      mret (inl (Errorf_w "failed to create subfinder runner: " err))
  | None =>
      ctx ← deriveCtx ctx config;
      '(resultMap, enumErr) ←
        retryLoop E (runnerOpts config) ctx domain maxRetries 1 ∅ None;
      match enumErr with
      | Some err =>
          mret (inl (Errorf_w ("enumeration error after " +:+ pretty maxRetries
                               +:+ " attempts: ") err))
      | None =>
          subdomains ← postProcess E domain config resultMap;
          mret (inr subdomains)
      end
  end.

(** ** Formatting helpers of the handlers *)

Definition newline : string := String "010"%char "".

(** [strings.Join(l, sep)] *)
Fixpoint strings_Join (l : list string) (sep : string) : string :=
  match l with
  | [] => ""
  | [x] => x
  | x :: rest => x +:+ sep +:+ strings_Join rest sep
  end.

Definition base64_alphabet : string :=
  "ABCDEFGHIJKLMNOPQRSTUVWXYZabcdefghijklmnopqrstuvwxyz0123456789+/".

Definition base64_digit (n : N) : ascii :=
  default "="%char (String.get (N.to_nat n) base64_alphabet).

(** [base64.StdEncoding.EncodeToString] *)
Fixpoint base64_EncodeToString (s : string) : string :=
  match s with
  | EmptyString => ""
  | String a EmptyString =>
      let x := N_of_ascii a in
      String (base64_digit (x / 4))
        (String (base64_digit (x `mod` 4 * 16)) "==")
  | String a (String b EmptyString) =>
      let x := N_of_ascii a in
      let y := N_of_ascii b in
      String (base64_digit (x / 4))
        (String (base64_digit (x `mod` 4 * 16 + y / 16))
           (String (base64_digit (y `mod` 16 * 4)) "="))
  | String a (String b (String c rest)) =>
      let x := N_of_ascii a in
      let y := N_of_ascii b in
      let z := N_of_ascii c in
      String (base64_digit (x / 4))
        (String (base64_digit (x `mod` 4 * 16 + y / 16))
           (String (base64_digit (y `mod` 16 * 4 + z / 64))
              (String (base64_digit (z `mod` 64))
                 (base64_EncodeToString rest))))
  end%N.

(** ** The handlers (package [mcp]) *)

Definition HandleInitialize (E : Env) (req : Request) : Response :=
  match UnmarshalInitializeParams E (req_Params req) with
  | None => mkResponse "2.0" (req_ID req) None (Some ErrParse)
  | Some params =>
      if bool_decide (ip_ProtocolVersion params ≠ SupportedProtocolVersion)
      then
        mkResponse "2.0" (req_ID req) None
          (Some (mkRPCError InvalidParamsCode
                   ("Unsupported protocol version: "
                    +:+ ip_ProtocolVersion params
                    +:+ ". Server supports: " +:+ SupportedProtocolVersion)
                   None))
      else
        mkResponse "2.0" (req_ID req)
          (Some (InitializeResultV
                   (mkInitializeResult "MCP Subfinder Server" "1.0.0"
                      SupportedProtocolVersion)))
          None
  end.

Definition schemaProperty (type description : string)
    (dflt : option jvalue) : jvalue :=
  JObject ([("type", JString type); ("description", JString description)]
           ++ match dflt with Some d => [("default", d)] | None => [] end).

Definition subdomainTool : Tool :=
  {| tool_Name := "enumerateSubdomains";
     tool_Title := "Enumerate Subdomains";
     tool_Description :=
       "Discovers subdomains for a given domain using the subfinder tool";
     tool_InputSchema :=
       JObject
         [("type", JString "object");
          ("properties",
           JObject
             [("domain",
               schemaProperty "string"
                 "The base domain to enumerate subdomains for (e.g., example.com)"
                 None);
              ("timeout",
               schemaProperty "integer"
                 "Maximum time in seconds to run enumeration (default: 60)"
                 (Some (JNumber (60 # 1))));
              ("maxDepth",
               schemaProperty "integer"
                 "Maximum depth to explore for subdomain enumeration (default: 1)"
                 (Some (JNumber (1 # 1))));
              ("sourcesFilter",
               schemaProperty "string"
                 "Comma-separated list of sources to use (default: all sources)"
                 None);
              ("excludeSourcesFilter",
               schemaProperty "string"
                 "Comma-separated list of sources to exclude" None);
              ("recursive",
               schemaProperty "boolean"
                 "Enable recursive subdomain discovery (default: false)"
                 (Some (JBool false)))]);
          ("required", JArray [JString "domain"])];
     tool_SupportsBinary := false;
     tool_RequiresAPIKeys := true |}.

Definition HandleToolsList (req : Request) : Response :=
  mkResponse "2.0" (req_ID req)
    (Some (ToolsListResultV (mkToolsListResult [subdomainTool]))) None.

(** [HandleToolsCall], lines 147-202: the configuration built from the
    optional arguments, one field after the other. *)
Definition withTimeout (args : gmap string jvalue) (c : SubfinderConfig)
  : SubfinderConfig :=
  match args !! "timeout" with
  | Some (JNumber timeout) =>
      if float64_gt0 timeout
      then mkSubfinderConfig (ProviderConfigPath c) (float64_to_int timeout)
             (MaxDepth c) (SourcesFilter c) (ExcludeSourcesFilter c)
             (Recursive c)
      else c
  | _ => c
  end.

Definition withMaxDepth (args : gmap string jvalue) (c : SubfinderConfig)
  : SubfinderConfig :=
  match args !! "maxDepth" with
  | Some (JNumber maxDepth) =>
      if float64_gt0 maxDepth
      then mkSubfinderConfig (ProviderConfigPath c) (Timeout c)
             (float64_to_int maxDepth) (SourcesFilter c)
             (ExcludeSourcesFilter c) (Recursive c)
      else c
  | _ => c
  end.

Definition withSourcesFilter (args : gmap string jvalue) (c : SubfinderConfig)
  : SubfinderConfig :=
  match args !! "sourcesFilter" with
  | Some (JString sourcesFilter) =>
      if bool_decide (sourcesFilter ≠ "")
      then mkSubfinderConfig (ProviderConfigPath c) (Timeout c) (MaxDepth c)
             sourcesFilter (ExcludeSourcesFilter c) (Recursive c)
      else c
  | _ => c
  end.

Definition withExcludeSourcesFilter (args : gmap string jvalue)
    (c : SubfinderConfig) : SubfinderConfig :=
  match args !! "excludeSourcesFilter" with
  | Some (JString excludeSourcesFilter) =>
      if bool_decide (excludeSourcesFilter ≠ "")
      then mkSubfinderConfig (ProviderConfigPath c) (Timeout c) (MaxDepth c)
             (SourcesFilter c) excludeSourcesFilter (Recursive c)
      else c
  | _ => c
  end.

Definition withRecursive (args : gmap string jvalue) (c : SubfinderConfig)
  : SubfinderConfig :=
  match args !! "recursive" with
  | Some (JBool recursive) =>
      mkSubfinderConfig (ProviderConfigPath c) (Timeout c) (MaxDepth c)
        (SourcesFilter c) (ExcludeSourcesFilter c) recursive
  | _ => c
  end.

Definition toolConfig (providerConfigPath : string)
    (args : gmap string jvalue) : SubfinderConfig :=
  withRecursive args
    (withExcludeSourcesFilter args
       (withSourcesFilter args
          (withMaxDepth args
             (withTimeout args
                (mkSubfinderConfig providerConfigPath 60 1 "" "" false))))).

(** [HandleToolsCall], lines 208-246: the tool result for either outcome of
    the enumeration. *)
Definition toolCallResult (domain : string) (outcome : error + list string)
  : ToolCallResult :=
  match outcome with
  | inl err =>
      mkToolCallResult
        [ContentItem "text"
           ("Subdomain enumeration failed: " +:+ Error_string err)]
        true
  | inr subdomains =>
      let resultText :=
        "Found " +:+ pretty (length subdomains) +:+ " subdomains for "
        +:+ domain +:+ ":" +:+ newline +:+ newline
        +:+ strings_Join subdomains newline in
      mkToolCallResult
        [ContentItem "text"
           ("Successfully enumerated " +:+ pretty (length subdomains)
            +:+ " subdomains for " +:+ domain);
         ResourceItem "resource" "text/plain" ""
           (base64_EncodeToString resultText)]
        false
  end.

Definition HandleToolsCall (E : Env) (ctx : Context) (req : Request)
    (providerConfigPath : string) : M Response :=
  match UnmarshalToolCallParams E (req_Params req) with
  | None => mret (mkResponse "2.0" (req_ID req) None (Some ErrParse))
  | Some params =>
      if bool_decide (tcp_Name params ≠ "enumerateSubdomains")
      then mret (mkResponse "2.0" (req_ID req) None (Some ErrMethodNotFound))
      else
        match tcp_Arguments params !! "domain" with
        | None =>
            mret (mkResponse "2.0" (req_ID req) None (Some ErrInvalidParams))
        | Some (JString domain) =>
            if bool_decide (domain = "")
            then
              mret (mkResponse "2.0" (req_ID req) None (Some ErrInvalidParams))
            else
              let config :=
                toolConfig providerConfigPath (tcp_Arguments params) in
              outcome ← RunEnumeration E ctx domain config;
              mret (mkResponse "2.0" (req_ID req)
                      (Some (ToolCallResultV (toolCallResult domain outcome)))
                      None)
        | Some _ =>
            mret (mkResponse "2.0" (req_ID req) None (Some ErrInvalidParams))
        end
  end.

Definition ProcessSingleRequest (E : Env) (ctx : Context) (req : Request)
    (providerConfigPath : string) : M Response :=
  let req :=
    if bool_decide (req_JSONRPC req = "")
    then mkRequest "2.0" (req_ID req) (req_Method req) (req_Params req)
    else req in
  if bool_decide (req_Method req = "initialize")
  then mret (HandleInitialize E req)
  else if bool_decide (req_Method req = "tools.list")
  then mret (HandleToolsList req)
  else if bool_decide (req_Method req = "tools.call")
  then HandleToolsCall E ctx req providerConfigPath
  else
    match req_ID req with
    | None => mret (mkResponse "" None None None)
    | Some _ =>
        mret (mkResponse "2.0" (req_ID req) None (Some ErrMethodNotFound))
    end.

(** ** [mcpHandler] (package [main]) *)

Definition serverTimeout : Z := 30 * time_Second.

Record HttpRequest : Type := mkHttpRequest {
  http_Method : string;
  http_ContentType : string;
  (** [None]: [io.ReadAll] failed *)
  http_Body : option string;
  http_Context : Context
}.

(** The value handed to the JSON encoder of [writeResponse]. *)
Inductive payload : Type :=
| Single (r : Response)
| Batch (rs : list Response).

Inductive HttpResponse : Type :=
| http_Error (message : string) (status : Z)
| http_JSON (status : Z) (body : payload).

(** [len(body) > 0 && body[0] == '['] *)
Definition isBatch (body : string) : bool :=
  match body with
  | String c _ => bool_decide (c = "["%char)
  | EmptyString => false
  end.

(** [mcpHandler], lines 168-175: the loop over a decoded batch. *)
Fixpoint batchLoop (E : Env) (ctx : Context) (providerConfigPath : string)
    (batchRequest : list Request) (batchResponse : list Response)
  : M (list Response) :=
  match batchRequest with
  | [] => mret batchResponse
  | req :: rest =>
      resp ← ProcessSingleRequest E ctx req providerConfigPath;
      let batchResponse :=
        if bool_decide (resp_ID resp ≠ None)
           || bool_decide (resp_Error resp ≠ None)
        then batchResponse ++ [resp] else batchResponse in
      batchLoop E ctx providerConfigPath rest batchResponse
  end.

(** [mcpHandler], lines 153-191: batch or single. *)
Definition dispatch (E : Env) (ctx : Context) (providerConfigPath : string)
    (body : string) : M payload :=
  if isBatch body then
    match UnmarshalBatch E body with
    | None => mret (Batch [mkResponse "2.0" None None (Some ErrParse)])
    | Some batchRequest =>
        batchResponse ← batchLoop E ctx providerConfigPath batchRequest [];
        mret (Batch batchResponse)
    end
  else
    match UnmarshalRequest E body with
    | None => mret (Single (mkResponse "2.0" None None (Some ErrParse)))
    | Some singleRequest =>
        response ← ProcessSingleRequest E ctx singleRequest providerConfigPath;
        mret (Single response)
    end.

Definition mcpHandler (E : Env) (providerConfigPath : string)
    (r : HttpRequest) : M HttpResponse :=
  if bool_decide (http_Method r ≠ "POST")
  then mret (http_Error "Method not allowed" 405)
  else if bool_decide (http_ContentType r ≠ "application/json")
  then mret (http_Error "Content type must be application/json" 415)
  else
    match http_Body r with
    | None => mret (http_Error "Failed to read request" 400)
    | Some body =>
        ctx ← WithTimeout (http_Context r) serverTimeout;
        response ← dispatch E ctx providerConfigPath body;
        mret (http_JSON 200 response)
    end.

(** ** [MCPHandler] (package [server]) *)

Definition time_Minute : Z := 60 * time_Second.

(** [MCPHandler] reads the method and the body of the request only.  It
    encodes with [json.Marshal]; [marshalFails] tells for which responses
    that call returns an error.  The payload of the answer is the response
    handed to [json.Marshal], before it is encoded.  The bytes written are
    its encoding by [encoding/json], which writes an id as base64 text;
    [mcpHandler] encodes with jsoniter, which writes the id as it came.  So
    payloads of the two handlers are not to be compared with each other. *)
Definition MCPHandler (E : Env) (marshalFails : Response → bool)
    (r : HttpRequest) : M HttpResponse :=
  if bool_decide (http_Method r ≠ "POST")
  then mret (http_Error "Method not allowed" 405)
  else
    match http_Body r with
    | None =>
        mret (http_JSON 200 (Single (mkResponse "2.0" None None (Some ErrParse))))
    | Some body =>
        match UnmarshalRequest E body with
        | None =>
            mret (http_JSON 200
                    (Single (mkResponse "2.0" None None (Some ErrParse))))
        | Some req =>
            response ←
              (if bool_decide (req_Method req = "initialize")
               then mret (HandleInitialize E req)
               else if bool_decide (req_Method req = "tools.list")
               then mret (HandleToolsList req)
               else if bool_decide (req_Method req = "tools.call")
               then
                 ctx ← WithTimeout Background (5 * time_Minute);
                 HandleToolsCall E ctx req ""
               else
                 mret (mkResponse "2.0" (req_ID req) None
                         (Some ErrMethodNotFound)));
            let response :=
              mkResponse "2.0" (resp_ID response) (resp_Result response)
                (resp_Error response) in
            mret (http_JSON 200
                    (Single (if marshalFails response
                             then mkResponse "2.0" None None (Some ErrInternal)
                             else response)))
        end
    end.

(** ** Notions used in the statements *)

(** The response of a handler that could not decode [req.Params]. *)
Definition parseErrorResponse (req : Request) : Response :=
  mkResponse "2.0" (req_ID req) None (Some ErrParse).

(** An optional argument that is present with a value the code does not
    accept although it has the right type. *)
Inductive outOfRange : string → jvalue → Prop :=
| timeout_not_positive f : (f <= 0)%Q → outOfRange "timeout" (JNumber f)
| maxDepth_not_positive f : (f <= 0)%Q → outOfRange "maxDepth" (JNumber f)
| sourcesFilter_empty : outOfRange "sourcesFilter" (JString "")
| excludeSourcesFilter_empty : outOfRange "excludeSourcesFilter" (JString "").

(** An optional argument whose value has another type than the code asserts. *)
Inductive wrongTyped : string → jvalue → Prop :=
| timeout_no_number v :
    (∀ f, v ≠ JNumber f) → wrongTyped "timeout" v
| maxDepth_no_number v :
    (∀ f, v ≠ JNumber f) → wrongTyped "maxDepth" v
| sourcesFilter_no_string v :
    (∀ s, v ≠ JString s) → wrongTyped "sourcesFilter" v
| excludeSourcesFilter_no_string v :
    (∀ s, v ≠ JString s) → wrongTyped "excludeSourcesFilter" v.

(** The field that [key] sets holds the default of lines 148-152. *)
Definition defaultKept (key : string) (config : SubfinderConfig) : Prop :=
  (key = "timeout" → Timeout config = 60)
  ∧ (key = "maxDepth" → MaxDepth config = 1)
  ∧ (key = "sourcesFilter" → SourcesFilter config = "")
  ∧ (key = "excludeSourcesFilter" → ExcludeSourcesFilter config = "").

(** The rule as the specification words it: the first byte that is not JSON
    white space (space, tab, line feed, carriage return). *)
Definition isWhitespace (c : ascii) : bool :=
  bool_decide (c = " "%char) || bool_decide (c = "009"%char)
  || bool_decide (c = "010"%char) || bool_decide (c = "013"%char).

Fixpoint firstNonWhitespace (body : string) : option ascii :=
  match body with
  | EmptyString => None
  | String c rest => if isWhitespace c then firstNonWhitespace rest else Some c
  end.

(** The context of a recursive probe, made as the [k]-th context. *)
Definition probeCtx (config : SubfinderConfig) (k : nat) : Context :=
  CtxTimeout Background (seconds (recursiveTimeoutOf config)) (Derived k).

(** The calls a recursive pass makes for the entries of [subdomains], the
    first of them with the [n]-th context. *)
Fixpoint probeEvents (config : SubfinderConfig) (n : nat)
    (subdomains : list string) : list event :=
  match subdomains with
  | [] => []
  | subdomain :: rest =>
      EvEnumerate (probeCtx config n) subdomain (recursiveOptsOf config)
      :: probeEvents config (S n) rest
  end.

(** Whether [RunEnumeration] runs the recursive pass on a non-empty first
    pass. *)
Definition recursionEnabled (config : SubfinderConfig) : Prop :=
  Recursive config = true ∧ 1 < MaxDepth config.

(** The state of [c] does not depend on what happens to the node [tag]. *)
Definition independentOf (tag : ctx_tag) (c : Context) : Prop :=
  ∀ sch sch' t,
    (∀ tag', tag' ≠ tag → sch tag' = sch' tag') →
    ctxErrAt sch t c = ctxErrAt sch' t c.

(** [c] was made before the world reached [w]. *)
Definition madeBefore (w : World) (c : Context) : Prop :=
  ∀ n, Derived n ∈ ctx_nodes c → (n < next_ctx w)%nat.

(** ** Notions used in the further properties *)

(** The two kinds of event. *)
Definition isEnumerate (ev : event) : bool :=
  match ev with EvEnumerate _ _ _ => true | EvSleep _ => false end.

Definition isSleep (ev : event) : bool :=
  match ev with EvEnumerate _ _ _ => false | EvSleep _ => true end.

(** [s] is a key of the map the provider returned in one of the calls
    recorded in [tr] at position [n] or later.  (The provider's answer to the
    call recorded at position [t] is its answer at time [t].) *)
Definition reportedSince (E : Env) (n : nat) (tr : list event) (s : string)
  : Prop :=
  ∃ t c d o,
    (n ≤ t)%nat ∧ tr !! t = Some (EvEnumerate c d o)
    ∧ s ∈ dom (provider E t c d o).1.

(** What every call to the provider and every pause of [RunEnumeration]
    looks like. *)
Definition wellBudgeted (ev : event) : Prop :=
  match ev with
  | EvEnumerate c _ o =>
      hasDeadline c = true ∧ 0 < opt_Timeout o
      ∧ MaxEnumerationTime o = opt_Timeout o
  | EvSleep d => d = 2 * time_Second
  end.

(** A call to the provider is made under [ctx] or under the context of a
    recursive probe. *)
Definition calledUnder (ctx : Context) (ev : event) : Prop :=
  match ev with
  | EvEnumerate c _ _ => c = ctx ∨ ∃ config k, c = probeCtx config k
  | EvSleep _ => True
  end.

(** ** Concrete inputs for the examples *)

(** [strings.EqualFold] on ASCII strings: letters are compared without
    regard to case, every other byte exactly. *)
Definition ascii_lower (c : ascii) : ascii :=
  let n := N_of_ascii c in
  if ((65 <=? n) && (n <=? 90))%N then ascii_of_N (n + 32) else c.

Fixpoint EqualFold_ascii (s t : string) : bool :=
  match s, t with
  | EmptyString, EmptyString => true
  | String a s', String b t' =>
      bool_decide (ascii_lower a = ascii_lower b) && EqualFold_ascii s' t'
  | _, _ => false
  end.

(** JSON texts. *)
Definition quoted (s : string) : string :=
  String "034"%char (s +:+ String "034"%char "").

(** [{"protocolVersion":"0.2"}] *)
Definition json_version_02 : string :=
  "{" +:+ quoted "protocolVersion" +:+ ":" +:+ quoted "0.2" +:+ "}".

(** [{"name":"enumerateSubdomains","arguments":{"domain":"example.com"}}] *)
Definition json_call_plain : string :=
  "{" +:+ quoted "name" +:+ ":" +:+ quoted "enumerateSubdomains" +:+ ","
  +:+ quoted "arguments" +:+ ":{" +:+ quoted "domain" +:+ ":"
  +:+ quoted "example.com" +:+ "}}".

(** [{"name":"enumerateSubdomains","arguments":{"domain":"example.com","timeout":0}}] *)
Definition json_call_timeout_0 : string :=
  "{" +:+ quoted "name" +:+ ":" +:+ quoted "enumerateSubdomains" +:+ ","
  +:+ quoted "arguments" +:+ ":{" +:+ quoted "domain" +:+ ":"
  +:+ quoted "example.com" +:+ "," +:+ quoted "timeout" +:+ ":0}}".

(** ["enumerateSubdomains"]: well-formed JSON, a string and not an object *)
Definition json_just_a_string : string := quoted "enumerateSubdomains".

(** [[{"jsonrpc":"2.0","method":"initialize","params":{"protocolVersion":"0.2"}}]] *)
Definition json_batch_initialize_notification : string :=
  "[{" +:+ quoted "jsonrpc" +:+ ":" +:+ quoted "2.0" +:+ ","
  +:+ quoted "method" +:+ ":" +:+ quoted "initialize" +:+ ","
  +:+ quoted "params" +:+ ":" +:+ json_version_02 +:+ "}]".

(** [{"jsonrpc":"2.0","method":"ping"}] *)
Definition json_ping_notification : string :=
  "{" +:+ quoted "jsonrpc" +:+ ":" +:+ quoted "2.0" +:+ ","
  +:+ quoted "method" +:+ ":" +:+ quoted "ping" +:+ "}".

(** An empty batch after one space. *)
Definition json_spaced_batch : string := " []".

Definition initialize_notification : Request :=
  mkRequest "2.0" None "initialize" json_version_02.

Definition ping_notification : Request := mkRequest "2.0" None "ping" "".

Definition call_params_plain : ToolCallParams :=
  mkToolCallParams "enumerateSubdomains"
    {[ "domain" := JString "example.com" ]} [].

Definition call_params_timeout_0 : ToolCallParams :=
  mkToolCallParams "enumerateSubdomains"
    {[ "domain" := JString "example.com"; "timeout" := JNumber (0 # 1) ]} [].

(** What jsoniter makes of the texts above; it rejects every other text the
    examples hand to it. *)
Definition exampleEnv
    (prov : nat → Context → string → RunnerOptions → ResultMap * option error)
    (sch : ctx_tag → option (nat * cause)) : Env :=
  {| EqualFold := EqualFold_ascii;
     NewRunner := λ _, None;
     provider := prov;
     sched := sch;
     UnmarshalRequest := λ text,
       if bool_decide (text = json_ping_notification)
       then Some ping_notification else None;
     UnmarshalBatch := λ text,
       if bool_decide (text = json_batch_initialize_notification)
       then Some [initialize_notification] else None;
     UnmarshalInitializeParams := λ text,
       if bool_decide (text = json_version_02)
       then Some (mkInitializeParams "0.2") else None;
     UnmarshalToolCallParams := λ text,
       if bool_decide (text = json_call_plain) then Some call_params_plain
       else if bool_decide (text = json_call_timeout_0)
       then Some call_params_timeout_0 else None |}.

Definition world0 : World := mkWorld 0 [].

(** A context of the caller with a cancel function and no deadline. *)
Definition callerCtx : Context := CtxCancel Background (External 0).

Definition neverFires : ctx_tag → option (nat * cause) := λ _, None.

(** The caller cancels [callerCtx] at time [t]. *)
Definition cancelledAt (t : nat) : ctx_tag → option (nat * cause) :=
  λ tag, if bool_decide (tag = External 0) then Some (t, Canceled) else None.

Definition nothingFound
  : nat → Context → string → RunnerOptions → ResultMap * option error :=
  λ _ _ _ _, (∅, None).

Definition alwaysFails
  : nat → Context → string → RunnerOptions → ResultMap * option error :=
  λ _ _ _ _, (∅, Some (runner_error "no sources available")).

(** Two keys that differ in case only, and the queried domain itself. *)
Definition mixedCase
  : nat → Context → string → RunnerOptions → ResultMap * option error :=
  λ _ _ _ _,
    ({[ "a.example.com" := {[ "crtsh" ]}; "A.example.com" := {[ "github" ]};
        "Example.com" := {[ "crtsh" ]} ]}, None).

(** [example.com] has one subdomain; asked about that one, the provider
    names its parent and one more level. *)
Definition namesParent
  : nat → Context → string → RunnerOptions → ResultMap * option error :=
  λ _ _ domain _,
    if bool_decide (domain = "example.com")
    then ({[ "a.example.com" := {[ "crtsh" ]} ]}, None)
    else ({[ "example.com" := {[ "crtsh" ]};
             "b.a.example.com" := {[ "crtsh" ]} ]}, None).

(** Twelve subdomains for [example.com]; nothing for anything else. *)
Definition twelve : list string :=
  ["s01.example.com"; "s02.example.com"; "s03.example.com"; "s04.example.com";
   "s05.example.com"; "s06.example.com"; "s07.example.com"; "s08.example.com";
   "s09.example.com"; "s10.example.com"; "s11.example.com"; "s12.example.com"].

Definition twelveFound
  : nat → Context → string → RunnerOptions → ResultMap * option error :=
  λ _ _ domain _,
    if bool_decide (domain = "example.com")
    then (list_to_map ((λ s, (s, ∅)) <$> twelve), None)
    else (∅, None).

Definition defaultConfig : SubfinderConfig :=
  mkSubfinderConfig "" 60 1 "" "" false.

Definition recursiveConfig : SubfinderConfig :=
  mkSubfinderConfig "" 60 2 "" "" true.

Definition exampleRequest (body : string) : HttpRequest :=
  mkHttpRequest "POST" "application/json" (Some body) Background.

(** An environment in which no runner can be built. *)
Definition brokenRunnerEnv : Env :=
  {| EqualFold := EqualFold_ascii;
     NewRunner := λ _, Some (runner_error "could not read provider config");
     provider := nothingFound;
     sched := neverFires;
     UnmarshalRequest := λ _, None;
     UnmarshalBatch := λ _, None;
     UnmarshalInitializeParams := λ _, None;
     UnmarshalToolCallParams := λ _, None |}.


(** One subdomain, found at once. *)
Definition oneFound
  : nat → Context → string → RunnerOptions → ResultMap * option error :=
  λ _ _ _ _, ({[ "www.example.com" := {[ "crtsh" ]} ]}, None).

(** The first attempt fails after it reported one name; every later call
    succeeds and reports another. *)
Definition oldThenNew
  : nat → Context → string → RunnerOptions → ResultMap * option error :=
  λ t _ _ _,
    if bool_decide (t = 0%nat)
    then ({[ "old.example.com" := {[ "crtsh" ]} ]},
          Some (runner_error "source timed out"))
    else ({[ "new.example.com" := {[ "crtsh" ]} ]}, None).

(** [{"name":"enumerateSubdomains","arguments":{"domain":"example.com","verbose":true}}] *)
Definition json_call_verbose : string :=
  "{" +:+ quoted "name" +:+ ":" +:+ quoted "enumerateSubdomains" +:+ ","
  +:+ quoted "arguments" +:+ ":{" +:+ quoted "domain" +:+ ":"
  +:+ quoted "example.com" +:+ "," +:+ quoted "verbose" +:+ ":true}}".

Definition call_params_verbose : ToolCallParams :=
  mkToolCallParams "enumerateSubdomains"
    {[ "domain" := JString "example.com"; "verbose" := JBool true ]} [].

(** An environment that decodes the call above, besides the plain one. *)
Definition verboseEnv : Env :=
  {| EqualFold := EqualFold_ascii;
     NewRunner := λ _, None;
     provider := oneFound;
     sched := neverFires;
     UnmarshalRequest := λ _, None;
     UnmarshalBatch := λ _, None;
     UnmarshalInitializeParams := λ _, None;
     UnmarshalToolCallParams := λ text,
       if bool_decide (text = json_call_plain) then Some call_params_plain
       else if bool_decide (text = json_call_verbose)
       then Some call_params_verbose else None |}.

(** * Properties *)

(** ** Proof steps used throughout *)

Ltac unfold_M :=
  unfold mbind, M_bind, mret, M_ret in *.

Ltac case_length_zero H :=
  match goal with
  | |- context [bool_decide (length ?l = 0%nat)] =>
      destruct (decide (length l = 0%nat)) as [H|H];
      [rewrite (bool_decide_eq_true_2 _ H)
      |rewrite (bool_decide_eq_false_2 _ H)]
  end.

Lemma float64_gt0_nonpositive (f : float64) :
  (f <= 0)%Q → float64_gt0 f = false.
Proof.
  intros Hle. unfold float64_gt0.
  apply negb_false_iff, Qle_bool_iff, Hle.
Qed.

(** ** Contexts *)

(** Once done, a context stays done, with the same error. *)
Lemma ctxErrAt_mono sch t t' c e :
  (t ≤ t')%nat → ctxErrAt sch t c = Some e → ctxErrAt sch t' c = Some e.
Proof.
  unfold ctxErrAt. intros Hle.
  destruct (ctxFire sch c) as [[t0 why]|]; [|done].
  destruct (t0 <=? t)%nat eqn:Ht0; [|done].
  apply Nat.leb_le in Ht0. intros [= <-].
  by rewrite (proj2 (Nat.leb_le t0 t')) by lia.
Qed.

(** A context whose parent is done is done. *)
Lemma ctxErrAt_child sch t parent d tag :
  ctxErrAt sch t parent ≠ None →
  ctxErrAt sch t (CtxCancel parent tag) ≠ None
  ∧ ctxErrAt sch t (CtxTimeout parent d tag) ≠ None.
Proof.
  unfold ctxErrAt. simpl.
  destruct (ctxFire sch parent) as [[tp cp]|]; [|done].
  destruct (tp <=? t)%nat eqn:Htp; [|done]. intros _.
  apply Nat.leb_le in Htp.
  assert (match
            match sch tag with
            | Some (tc, cc) =>
                if (tc <? tp)%nat then Some (tc, cc) else Some (tp, cp)
            | None => Some (tp, cp)
            end
          with
          | Some (t0, why) =>
              if (t0 <=? t)%nat then Some (cause_error why) else None
          | None => None
          end ≠ None) as Hdone.
  { destruct (sch tag) as [[tc cc]|].
    - destruct (tc <? tp)%nat eqn:Htc.
      + apply Nat.ltb_lt in Htc.
        by rewrite (proj2 (Nat.leb_le tc t)) by lia.
      + by rewrite (proj2 (Nat.leb_le tp t)) by lia.
    - by rewrite (proj2 (Nat.leb_le tp t)) by lia. }
  by split.
Qed.

(** Deriving the context is no event. *)
Lemma deriveCtx_trace ctx config w : trace (deriveCtx ctx config w).2 = trace w.
Proof. unfold deriveCtx. by destruct (hasDeadline ctx). Qed.

(** The context of the retry loop is the caller's or a child of it: once the
    caller's context is done, so is the one the retry loop reads. *)
Lemma deriveCtx_done E ctx config w t :
  ctxErrAt (sched E) t ctx ≠ None →
  ctxErrAt (sched E) t (deriveCtx ctx config w).1 ≠ None.
Proof.
  intros Hdone. unfold deriveCtx. destruct (hasDeadline ctx); [done|].
  simpl. by apply ctxErrAt_child.
Qed.

(** ** The handlers *)

(** C10: when the params of an initialize or tools.call request cannot be
    decoded into the parameter structure, the handler answers with the
    request's id and the Parse error (-32700), which is neither Invalid
    params nor Invalid Request. *)
Theorem undecodable_params_parse_error E ctx req providerConfigPath w :
  (UnmarshalInitializeParams E (req_Params req) = None →
     HandleInitialize E req = parseErrorResponse req)
  ∧ (UnmarshalToolCallParams E (req_Params req) = None →
     HandleToolsCall E ctx req providerConfigPath w
     = (parseErrorResponse req, w))
  ∧ Code ErrParse = -32700
  ∧ Code ErrParse ≠ Code ErrInvalidParams
  ∧ Code ErrParse ≠ Code ErrInvalidRequest.
Proof.
  repeat split; try discriminate.
  - intros Hdec. unfold HandleInitialize. by rewrite Hdec.
  - intros Hdec. unfold HandleToolsCall. by rewrite Hdec.
Qed.

Lemma undecodable_params_parse_error_witness :
  HandleInitialize (exampleEnv nothingFound neverFires)
    (mkRequest "2.0" (Some "7") "initialize" json_just_a_string)
  = mkResponse "2.0" (Some "7") None (Some ErrParse)
  ∧ HandleToolsCall (exampleEnv nothingFound neverFires) callerCtx
      (mkRequest "2.0" (Some "8") "tools.call" json_just_a_string) "" world0
    = (mkResponse "2.0" (Some "8") None (Some ErrParse), world0).
Proof.
  split.
  - apply (proj1 (undecodable_params_parse_error
                    (exampleEnv nothingFound neverFires) callerCtx
                    (mkRequest "2.0" (Some "7") "initialize" json_just_a_string)
                    "" world0)).
    reflexivity.
  - apply (proj1 (proj2 (undecodable_params_parse_error
                    (exampleEnv nothingFound neverFires) callerCtx
                    (mkRequest "2.0" (Some "8") "tools.call" json_just_a_string)
                    "" world0))).
    reflexivity.
Defined.

(** A tools.call request that names the tool and a non-empty string domain
    reaches the enumeration. *)
Lemma HandleToolsCall_valid_domain E ctx req providerConfigPath params domain w :
  UnmarshalToolCallParams E (req_Params req) = Some params →
  tcp_Name params = "enumerateSubdomains" →
  tcp_Arguments params !! "domain" = Some (JString domain) →
  domain ≠ "" →
  HandleToolsCall E ctx req providerConfigPath w
  = let '(outcome, w') :=
      RunEnumeration E ctx domain
        (toolConfig providerConfigPath (tcp_Arguments params)) w in
    (mkResponse "2.0" (req_ID req)
       (Some (ToolCallResultV (toolCallResult domain outcome))) None, w').
Proof.
  intros Hdec Hname Hdom Hne. unfold HandleToolsCall.
  rewrite Hdec, Hname, Hdom. simpl.
  rewrite bool_decide_eq_false_2 by done.
  unfold_M. by destruct (RunEnumeration _ _ _ _ _).
Qed.

(** C1: a tools.call with a valid domain whose enumeration fails is answered
    with a result and no RPC error; the result is a ToolCallResult with the
    error flag set and exactly one text item, which describes the failure. *)
Theorem enumeration_failure_is_tool_result
    E ctx req providerConfigPath params domain err w w' :
  UnmarshalToolCallParams E (req_Params req) = Some params →
  tcp_Name params = "enumerateSubdomains" →
  tcp_Arguments params !! "domain" = Some (JString domain) →
  domain ≠ "" →
  RunEnumeration E ctx domain
    (toolConfig providerConfigPath (tcp_Arguments params)) w = (inl err, w') →
  HandleToolsCall E ctx req providerConfigPath w
  = (mkResponse "2.0" (req_ID req)
       (Some (ToolCallResultV
                (mkToolCallResult
                   [ContentItem "text"
                      ("Subdomain enumeration failed: " +:+ Error_string err)]
                   true)))
       None,
     w').
Proof.
  intros Hdec Hname Hdom Hne Hrun.
  rewrite (HandleToolsCall_valid_domain _ _ _ _ _ _ _ Hdec Hname Hdom Hne).
  by rewrite Hrun.
Qed.

Lemma enumeration_failure_is_tool_result_witness :
  (HandleToolsCall (exampleEnv alwaysFails neverFires) callerCtx
     (mkRequest "2.0" (Some "3") "tools.call" json_call_plain) "" world0).1
  = mkResponse "2.0" (Some "3")
      (Some (ToolCallResultV
               (mkToolCallResult
                  [ContentItem "text"
                     "Subdomain enumeration failed: enumeration error after 3 attempts: no sources available"]
                  true)))
      None.
Proof.
  pose proof (enumeration_failure_is_tool_result
                (exampleEnv alwaysFails neverFires) callerCtx
                (mkRequest "2.0" (Some "3") "tools.call" json_call_plain) ""
                call_params_plain "example.com"
                (Errorf_w "enumeration error after 3 attempts: "
                   (runner_error "no sources available"))
                world0
                (RunEnumeration (exampleEnv alwaysFails neverFires) callerCtx
                   "example.com" defaultConfig world0).2) as H.
  rewrite H; [reflexivity | reflexivity | reflexivity | reflexivity
             | discriminate | by vm_compute].
Defined.

(** Each step of [toolConfig] reads one key of the argument map. *)
Lemma withTimeout_lookup (args args' : gmap string jvalue) c :
  args !! "timeout" = args' !! "timeout" →
  withTimeout args c = withTimeout args' c.
Proof. unfold withTimeout. by intros ->. Qed.

Lemma withMaxDepth_lookup (args args' : gmap string jvalue) c :
  args !! "maxDepth" = args' !! "maxDepth" →
  withMaxDepth args c = withMaxDepth args' c.
Proof. unfold withMaxDepth. by intros ->. Qed.

Lemma withSourcesFilter_lookup (args args' : gmap string jvalue) c :
  args !! "sourcesFilter" = args' !! "sourcesFilter" →
  withSourcesFilter args c = withSourcesFilter args' c.
Proof. unfold withSourcesFilter. by intros ->. Qed.

Lemma withExcludeSourcesFilter_lookup (args args' : gmap string jvalue) c :
  args !! "excludeSourcesFilter" = args' !! "excludeSourcesFilter" →
  withExcludeSourcesFilter args c = withExcludeSourcesFilter args' c.
Proof. unfold withExcludeSourcesFilter. by intros ->. Qed.

Lemma withRecursive_lookup (args args' : gmap string jvalue) c :
  args !! "recursive" = args' !! "recursive" →
  withRecursive args c = withRecursive args' c.
Proof. unfold withRecursive. by intros ->. Qed.

(** Two argument maps that agree on every key but [key], and on which the
    step reading [key] changes nothing, give the same configuration. *)
Lemma toolConfig_agree providerConfigPath (args args' : gmap string jvalue) key :
  (∀ k, k ≠ key → args !! k = args' !! k) →
  (∀ c, withTimeout args c = withTimeout args' c) →
  (∀ c, withMaxDepth args c = withMaxDepth args' c) →
  (∀ c, withSourcesFilter args c = withSourcesFilter args' c) →
  (∀ c, withExcludeSourcesFilter args c = withExcludeSourcesFilter args' c) →
  key ≠ "recursive" →
  toolConfig providerConfigPath args = toolConfig providerConfigPath args'.
Proof.
  intros Hother Ht Hm Hs He Hr. unfold toolConfig.
  rewrite Ht, Hm, Hs, He.
  apply withRecursive_lookup, Hother. by intros <-.
Qed.

Lemma toolConfig_outOfRange providerConfigPath (args : gmap string jvalue) key v :
  args !! key = Some v →
  outOfRange key v →
  toolConfig providerConfigPath args
  = toolConfig providerConfigPath (delete key args).
Proof.
  intros Hkey Hout.
  apply toolConfig_agree with (key := key).
  - intros k Hk. by rewrite lookup_delete_ne.
  - intros c. destruct Hout as [f Hf| | |];
      [|apply withTimeout_lookup; by rewrite lookup_delete_ne..].
    unfold withTimeout.
    by rewrite lookup_delete_eq, Hkey, (float64_gt0_nonpositive f Hf).
  - intros c. destruct Hout as [|f Hf| |];
      [|unfold withMaxDepth;
        by rewrite lookup_delete_eq, Hkey, (float64_gt0_nonpositive f Hf)
       |..]; apply withMaxDepth_lookup; by rewrite lookup_delete_ne.
  - intros c. destruct Hout as [| | |];
      [| |unfold withSourcesFilter; by rewrite lookup_delete_eq, Hkey|];
      apply withSourcesFilter_lookup; by rewrite lookup_delete_ne.
  - intros c. destruct Hout as [| | |];
      [| | |unfold withExcludeSourcesFilter;
            by rewrite lookup_delete_eq, Hkey];
      apply withExcludeSourcesFilter_lookup; by rewrite lookup_delete_ne.
  - by destruct Hout.
Qed.

Lemma toolConfig_wrongTyped providerConfigPath (args : gmap string jvalue) key v :
  wrongTyped key v →
  toolConfig providerConfigPath (<[key := v]> args)
  = toolConfig providerConfigPath (delete key args).
Proof.
  intros Hwrong.
  apply toolConfig_agree with (key := key).
  - intros k Hk. by rewrite lookup_insert_ne, lookup_delete_ne.
  - intros c. destruct Hwrong as [v Hv| | |];
      [|apply withTimeout_lookup;
        by rewrite lookup_insert_ne, lookup_delete_ne..].
    unfold withTimeout. rewrite lookup_insert_eq, lookup_delete_eq.
    destruct v; try done. by edestruct Hv.
  - intros c. destruct Hwrong as [|v Hv| |];
      [|unfold withMaxDepth; rewrite lookup_insert_eq, lookup_delete_eq;
        destruct v; try done; by edestruct Hv
       |..]; apply withMaxDepth_lookup;
      by rewrite lookup_insert_ne, lookup_delete_ne.
  - intros c. destruct Hwrong as [| |v Hv|];
      [| |unfold withSourcesFilter;
          rewrite lookup_insert_eq, lookup_delete_eq;
          destruct v; try done; by edestruct Hv|];
      apply withSourcesFilter_lookup;
      by rewrite lookup_insert_ne, lookup_delete_ne.
  - intros c. destruct Hwrong as [| | |v Hv];
      [| | |unfold withExcludeSourcesFilter;
            rewrite lookup_insert_eq, lookup_delete_eq;
            destruct v; try done; by edestruct Hv];
      apply withExcludeSourcesFilter_lookup;
      by rewrite lookup_insert_ne, lookup_delete_ne.
  - by destruct Hwrong.
Qed.

(** Each step leaves the fields of the other steps as they are. *)
Lemma withMaxDepth_others (args : gmap string jvalue) c :
  Timeout (withMaxDepth args c) = Timeout c.
Proof. unfold withMaxDepth. by repeat case_match. Qed.

Lemma withSourcesFilter_others (args : gmap string jvalue) c :
  Timeout (withSourcesFilter args c) = Timeout c
  ∧ MaxDepth (withSourcesFilter args c) = MaxDepth c.
Proof. unfold withSourcesFilter. by repeat case_match. Qed.

Lemma withExcludeSourcesFilter_others (args : gmap string jvalue) c :
  Timeout (withExcludeSourcesFilter args c) = Timeout c
  ∧ MaxDepth (withExcludeSourcesFilter args c) = MaxDepth c
  ∧ SourcesFilter (withExcludeSourcesFilter args c) = SourcesFilter c.
Proof. unfold withExcludeSourcesFilter. by repeat case_match. Qed.

Lemma withRecursive_others (args : gmap string jvalue) c :
  Timeout (withRecursive args c) = Timeout c
  ∧ MaxDepth (withRecursive args c) = MaxDepth c
  ∧ SourcesFilter (withRecursive args c) = SourcesFilter c
  ∧ ExcludeSourcesFilter (withRecursive args c) = ExcludeSourcesFilter c.
Proof. unfold withRecursive. by repeat case_match. Qed.

Lemma withTimeout_others (args : gmap string jvalue) c :
  MaxDepth (withTimeout args c) = MaxDepth c
  ∧ SourcesFilter (withTimeout args c) = SourcesFilter c
  ∧ ExcludeSourcesFilter (withTimeout args c) = ExcludeSourcesFilter c.
Proof. unfold withTimeout. by repeat case_match. Qed.

Lemma withMaxDepth_filters (args : gmap string jvalue) c :
  SourcesFilter (withMaxDepth args c) = SourcesFilter c
  ∧ ExcludeSourcesFilter (withMaxDepth args c) = ExcludeSourcesFilter c.
Proof. unfold withMaxDepth. by repeat case_match. Qed.

Lemma withSourcesFilter_exclude (args : gmap string jvalue) c :
  ExcludeSourcesFilter (withSourcesFilter args c) = ExcludeSourcesFilter c.
Proof. unfold withSourcesFilter. by repeat case_match. Qed.

(** The fields of the configuration, each as the step that sets it leaves
    it. *)
Lemma toolConfig_fields providerConfigPath (args : gmap string jvalue) :
  let c0 := mkSubfinderConfig providerConfigPath 60 1 "" "" false in
  Timeout (toolConfig providerConfigPath args) = Timeout (withTimeout args c0)
  ∧ MaxDepth (toolConfig providerConfigPath args)
    = MaxDepth (withMaxDepth args c0)
  ∧ SourcesFilter (toolConfig providerConfigPath args)
    = SourcesFilter (withSourcesFilter args c0)
  ∧ ExcludeSourcesFilter (toolConfig providerConfigPath args)
    = ExcludeSourcesFilter (withExcludeSourcesFilter args c0).
Proof.
  intros c0. unfold toolConfig. fold c0.
  destruct (withRecursive_others args
              (withExcludeSourcesFilter args
                 (withSourcesFilter args
                    (withMaxDepth args (withTimeout args c0)))))
    as (-> & -> & -> & ->).
  destruct (withExcludeSourcesFilter_others args
              (withSourcesFilter args (withMaxDepth args (withTimeout args c0))))
    as (-> & -> & ->).
  destruct (withSourcesFilter_others args
              (withMaxDepth args (withTimeout args c0))) as (-> & ->).
  rewrite withMaxDepth_others.
  destruct (withTimeout_others args c0) as (Hm & Hs & He).
  destruct (withMaxDepth_filters args (withTimeout args c0)) as (Hs' & He').
  repeat split.
  - unfold withMaxDepth. repeat case_match; simpl in *; congruence.
  - unfold withSourcesFilter.
    repeat case_match; simpl in *; congruence.
  - unfold withExcludeSourcesFilter.
    repeat case_match; simpl in *; rewrite ?withSourcesFilter_exclude;
      congruence.
Qed.

Lemma toolConfig_defaultKept providerConfigPath (args : gmap string jvalue) key v :
  args !! key = Some v →
  outOfRange key v →
  defaultKept key (toolConfig providerConfigPath args).
Proof.
  intros Hkey Hout.
  destruct (toolConfig_fields providerConfigPath args) as (Ht & Hm & Hs & He).
  destruct Hout as [f Hf|f Hf| |]; repeat split; try discriminate; intros _.
  - rewrite Ht. unfold withTimeout.
    by rewrite Hkey, (float64_gt0_nonpositive f Hf).
  - rewrite Hm. unfold withMaxDepth.
    by rewrite Hkey, (float64_gt0_nonpositive f Hf).
  - rewrite Hs. unfold withSourcesFilter. by rewrite Hkey.
  - rewrite He. unfold withExcludeSourcesFilter. by rewrite Hkey.
Qed.

(** C9: in a tools.call with a valid domain, a timeout or maxDepth that is
    zero or negative, or an empty sourcesFilter or excludeSourcesFilter, is
    treated like an absent argument: the field keeps its default (60, 1,
    the empty filter); the configuration is that of the request without the
    argument; the call proceeds: the handler runs the enumeration for the
    domain with this configuration, and its response is the tool result of
    that run, with the effects of that run; response and effects are those
    of the request without the argument; the response carries no RPC error;
    and a wrong-typed value for the same argument gives that same
    configuration. *)
Theorem out_of_range_optional_argument_is_ignored
    E ctx req req' providerConfigPath params params' domain key v w :
  UnmarshalToolCallParams E (req_Params req) = Some params →
  tcp_Name params = "enumerateSubdomains" →
  tcp_Arguments params !! "domain" = Some (JString domain) →
  domain ≠ "" →
  tcp_Arguments params !! key = Some v →
  outOfRange key v →
  UnmarshalToolCallParams E (req_Params req') = Some params' →
  tcp_Name params' = tcp_Name params →
  tcp_Arguments params' = delete key (tcp_Arguments params) →
  req_ID req' = req_ID req →
  defaultKept key (toolConfig providerConfigPath (tcp_Arguments params))
  ∧ toolConfig providerConfigPath (tcp_Arguments params)
    = toolConfig providerConfigPath (tcp_Arguments params')
  ∧ HandleToolsCall E ctx req providerConfigPath w
    = (mkResponse "2.0" (req_ID req)
         (Some (ToolCallResultV
                  (toolCallResult domain
                     (RunEnumeration E ctx domain
                        (toolConfig providerConfigPath
                           (delete key (tcp_Arguments params))) w).1)))
         None,
       (RunEnumeration E ctx domain
          (toolConfig providerConfigPath (delete key (tcp_Arguments params)))
          w).2)
  ∧ HandleToolsCall E ctx req providerConfigPath w
    = HandleToolsCall E ctx req' providerConfigPath w
  ∧ resp_Error (HandleToolsCall E ctx req providerConfigPath w).1 = None
  ∧ (∀ v', wrongTyped key v' →
       toolConfig providerConfigPath (<[key := v']> (tcp_Arguments params))
       = toolConfig providerConfigPath (tcp_Arguments params)).
Proof.
  intros Hdec Hname Hdom Hne Hkey Hout Hdec' Hname' Hargs' Hid.
  assert (key ≠ "domain") as Hkd by (by destruct Hout).
  assert (tcp_Arguments params' !! "domain" = Some (JString domain)) as Hdom'.
  { by rewrite Hargs', lookup_delete_ne. }
  pose proof (toolConfig_outOfRange providerConfigPath _ _ _ Hkey Hout) as Hcfg.
  rewrite (HandleToolsCall_valid_domain _ _ _ _ _ _ _ Hdec Hname Hdom Hne).
  rewrite (HandleToolsCall_valid_domain E ctx req' providerConfigPath params'
             domain w Hdec' (eq_trans Hname' Hname) Hdom' Hne).
  split; [by apply (toolConfig_defaultKept _ _ _ v)|].
  rewrite Hargs', Hcfg, Hid.
  split; [done|]. split; [by destruct (RunEnumeration _ _ _ _ _)|].
  split; [done|]. split; [by destruct (RunEnumeration _ _ _ _ _)|].
  intros v' Hwrong.
  by rewrite (toolConfig_wrongTyped _ _ _ _ Hwrong).
Qed.

Lemma out_of_range_optional_argument_is_ignored_witness :
  toolConfig "" (tcp_Arguments call_params_timeout_0)
  = mkSubfinderConfig "" 60 1 "" "" false
  ∧ HandleToolsCall (exampleEnv nothingFound neverFires) callerCtx
      (mkRequest "2.0" (Some "4") "tools.call" json_call_timeout_0) "" world0
    = (mkResponse "2.0" (Some "4")
         (Some (ToolCallResultV
                  (toolCallResult "example.com"
                     (RunEnumeration (exampleEnv nothingFound neverFires)
                        callerCtx "example.com"
                        (mkSubfinderConfig "" 60 1 "" "" false) world0).1)))
         None,
       (RunEnumeration (exampleEnv nothingFound neverFires) callerCtx
          "example.com" (mkSubfinderConfig "" 60 1 "" "" false) world0).2)
  ∧ HandleToolsCall (exampleEnv nothingFound neverFires) callerCtx
      (mkRequest "2.0" (Some "4") "tools.call" json_call_timeout_0) "" world0
    = HandleToolsCall (exampleEnv nothingFound neverFires) callerCtx
        (mkRequest "2.0" (Some "4") "tools.call" json_call_plain) "" world0
  ∧ resp_Error
      (HandleToolsCall (exampleEnv nothingFound neverFires) callerCtx
         (mkRequest "2.0" (Some "4") "tools.call" json_call_timeout_0) ""
         world0).1 = None.
Proof.
  destruct (out_of_range_optional_argument_is_ignored
              (exampleEnv nothingFound neverFires) callerCtx
              (mkRequest "2.0" (Some "4") "tools.call" json_call_timeout_0)
              (mkRequest "2.0" (Some "4") "tools.call" json_call_plain)
              "" call_params_timeout_0 call_params_plain "example.com"
              "timeout" (JNumber (0 # 1)) world0)
    as (_ & Hcfg & Hrun & Hsame & Herr & _);
    [reflexivity | reflexivity | reflexivity | discriminate | reflexivity
    | by constructor | reflexivity | reflexivity | by vm_compute | reflexivity
    | ].
  assert (toolConfig "" (delete "timeout" (tcp_Arguments call_params_timeout_0))
          = mkSubfinderConfig "" 60 1 "" "" false) as Hdel.
  { by vm_compute. }
  rewrite Hdel in Hrun.
  split; [by rewrite Hcfg | split; [exact Hrun | split; [exact Hsame | exact Herr]]].
Defined.

(** ** The dispatcher *)

(** Against C6 as stated: the payload [ [] ] behind one space.  Its first
    non-whitespace byte is the bracket, and the dispatcher handles it as a
    single request, which fails to decode. *)
Lemma batch_after_whitespace_is_handled_as_single :
  firstNonWhitespace json_spaced_batch = Some "["%char
  ∧ (mcpHandler (exampleEnv nothingFound neverFires) ""
       (exampleRequest json_spaced_batch) world0).1
    = http_JSON 200 (Single (mkResponse "2.0" None None (Some ErrParse))).
Proof. split; reflexivity. Qed.

(** C6, amended: a payload is handled as a batch exactly when its first byte
    is the opening bracket (white space is not skipped), and as a single
    request otherwise; a batch that decodes is handled request by request,
    and one that does not is answered by a one-element array holding the
    Parse error; every other payload is decoded as one request, which
    [ProcessSingleRequest] answers, and one that does not decode is answered
    by the Parse error, with nothing done. *)
Theorem batch_iff_first_byte_is_bracket E ctx providerConfigPath body w :
  ((∃ rs, (dispatch E ctx providerConfigPath body w).1 = Batch rs)
   ↔ ∃ rest, body = String "["%char rest)
  ∧ ((∃ r, (dispatch E ctx providerConfigPath body w).1 = Single r)
     ↔ ¬ ∃ rest, body = String "["%char rest)
  ∧ (∀ rest, body = String "["%char rest →
       (dispatch E ctx providerConfigPath body w).1
       = match UnmarshalBatch E body with
         | Some batchRequest =>
             Batch (batchLoop E ctx providerConfigPath batchRequest [] w).1
         | None => Batch [mkResponse "2.0" None None (Some ErrParse)]
         end)
  ∧ ((¬ ∃ rest, body = String "["%char rest) →
       dispatch E ctx providerConfigPath body w
       = match UnmarshalRequest E body with
         | Some singleRequest =>
             (Single (ProcessSingleRequest E ctx singleRequest
                        providerConfigPath w).1,
              (ProcessSingleRequest E ctx singleRequest providerConfigPath
                 w).2)
         | None => (Single (mkResponse "2.0" None None (Some ErrParse)), w)
         end).
Proof.
  assert (isBatch body = true ↔ ∃ rest, body = String "["%char rest) as Hshape.
  { destruct body as [|c rest]; simpl.
    - split; [discriminate | by intros [? ?]].
    - rewrite bool_decide_eq_true. split.
      + intros ->. by exists rest.
      + by intros [? [= -> _]]. }
  unfold dispatch. unfold_M.
  destruct (isBatch body) eqn:Hb.
  - assert (∃ rest, body = String "["%char rest) as Hex by (by apply Hshape).
    assert ((dispatch E ctx providerConfigPath body w).1
            = match UnmarshalBatch E body with
              | Some batchRequest =>
                  Batch (batchLoop E ctx providerConfigPath batchRequest [] w).1
              | None => Batch [mkResponse "2.0" None None (Some ErrParse)]
              end) as Heq.
    { unfold dispatch. unfold_M. rewrite Hb.
      destruct (UnmarshalBatch E body); [|done].
      by destruct (batchLoop _ _ _ _ _ _). }
    unfold dispatch in Heq. unfold_M. rewrite Hb in Heq.
    split; [|split; [|split]].
    + split; [done|]. intros _. rewrite Heq.
      destruct (UnmarshalBatch E body); eauto.
    + split; [|done]. intros [r Hr]. rewrite Heq in Hr.
      by destruct (UnmarshalBatch E body).
    + done.
    + intros Hnex. by destruct Hnex.
  - assert (¬ ∃ rest, body = String "["%char rest) as Hnex.
    { intros Hex. apply Hshape in Hex. congruence. }
    split; [|split; [|split]].
    + split; [|done]. intros [rs Hrs].
      destruct (UnmarshalRequest E body); [|done].
      by destruct (ProcessSingleRequest _ _ _ _ _).
    + split; [done|]. intros _.
      destruct (UnmarshalRequest E body); [|by eauto].
      destruct (ProcessSingleRequest _ _ _ _ _); by eauto.
    + intros rest Hrest. destruct Hnex. eauto.
    + intros _. destruct (UnmarshalRequest E body); [|done].
      by destruct (ProcessSingleRequest _ _ _ _ _).
Qed.






(** ** The orchestrator: sorting and collecting *)

Lemma sort_Strings_Permutation (l : list string) : sort_Strings l ≡ₚ l.
Proof. apply merge_sort_Permutation. Qed.

Lemma sort_Strings_Sorted (l : list string) : Sorted String.le (sort_Strings l).
Proof. apply (Sorted_merge_sort String.le). Qed.

Lemma sort_Strings_elem_of (l : list string) s : s ∈ sort_Strings l ↔ s ∈ l.
Proof. by rewrite sort_Strings_Permutation. Qed.

Lemma sort_Strings_NoDup (l : list string) : NoDup l → NoDup (sort_Strings l).
Proof. by rewrite sort_Strings_Permutation. Qed.

Lemma collectSubdomains_elem_of E domain (resultMap : ResultMap) s :
  s ∈ collectSubdomains E domain resultMap
  ↔ EqualFold E s domain = false ∧ s ∈ dom resultMap.
Proof.
  unfold collectSubdomains.
  by rewrite sort_Strings_elem_of, list_elem_of_filter, elem_of_elements.
Qed.

Lemma collectSubdomains_NoDup E domain (resultMap : ResultMap) :
  NoDup (collectSubdomains E domain resultMap).
Proof.
  unfold collectSubdomains.
  apply sort_Strings_NoDup, NoDup_filter, NoDup_elements.
Qed.

Lemma collectSubdomains_empty E domain :
  collectSubdomains E domain ∅ = [].
Proof.
  unfold collectSubdomains. by rewrite dom_empty_L, elements_empty.
Qed.

Lemma commonSubdomains_NoDup domain : NoDup (commonSubdomains domain).
Proof.
  unfold commonSubdomains, commonPrefixes. simpl.
  repeat (apply NoDup_cons; split;
          [rewrite ?elem_of_cons, elem_of_nil; intros H;
           repeat (destruct H as [H|H]; [discriminate H|]); exact H|]).
  apply NoDup_nil_2.
Qed.

(** ** The orchestrator: the recursive pass *)

Lemma mergeProbe_subseteq E subdomain (recResultMap : ResultMap)
    (allSubdomains : gset string) :
  allSubdomains ⊆ mergeProbe E subdomain recResultMap allSubdomains.
Proof.
  unfold mergeProbe.
  generalize (elements (dom recResultMap)). intros l.
  revert allSubdomains. induction l as [|r l IH]; intros all; simpl; [done|].
  etrans; [|apply IH].
  destruct (EqualFold E r subdomain); [done|].
  case_bool_decide; set_solver.
Qed.

Lemma recursiveLoop_spec E config subdomains :
  ∀ i allSubdomains w,
    let '(all', w') :=
      recursiveLoop E (recursiveOptsOf config) (recursiveTimeoutOf config)
        i subdomains allSubdomains w in
    allSubdomains ⊆ all'
    ∧ trace w'
      = trace w
        ++ probeEvents config (next_ctx w)
             (take (maxSubdomainsToProcess - i) subdomains)
    ∧ next_ctx w'
      = (next_ctx w
         + length (take (maxSubdomainsToProcess - i) subdomains))%nat.
Proof.
  induction subdomains as [|subdomain rest IH]; intros i all w.
  - simpl. unfold_M. rewrite take_nil. simpl.
    by rewrite app_nil_r, Nat.add_0_r.
  - simpl. case_bool_decide as Hi.
    + unfold_M. replace (maxSubdomainsToProcess - i)%nat with 0%nat by lia.
      simpl. by rewrite app_nil_r, Nat.add_0_r.
    + unfold_M. unfold WithTimeout, EnumerateSingleDomainWithCtx. simpl.
      destruct (provider E _ _ _ _) as [recResultMap recErr].
      replace (maxSubdomainsToProcess - i)%nat
        with (S (maxSubdomainsToProcess - S i)) by lia.
      simpl.
      destruct recErr as [recErr|];
        match goal with
        | |- context [recursiveLoop _ _ _ (S i) rest ?a ?w1] =>
            specialize (IH (S i) a w1);
            destruct (recursiveLoop E _ _ (S i) rest a w1) as [all' w']
        end;
        simpl in IH; destruct IH as (Hsub & Htr & Hn);
        (split; [|split; [by rewrite Htr, <- app_assoc | rewrite Hn; lia]]).
      * done.
      * etrans; [apply mergeProbe_subseteq|done].
Qed.

Lemma recursivePass_spec E config subdomains w :
  let '(result, w') := recursivePass E config subdomains w in
  (∃ all' : gset string,
     result = sort_Strings (elements all') ∧ ∀ s, s ∈ subdomains → s ∈ all')
  ∧ trace w'
    = trace w
      ++ match NewRunner E (recursiveOptsOf config) with
         | Some _ => []
         | None =>
             probeEvents config (next_ctx w)
               (take maxSubdomainsToProcess subdomains)
         end.
Proof.
  unfold recursivePass. rewrite take_drop.
  replace (if bool_decide (maxSubdomainsToProcess < length subdomains)%nat
           then subdomains else subdomains) with subdomains
    by (by case_bool_decide).
  unfold_M. destruct (NewRunner E (recursiveOptsOf config)).
  - simpl. rewrite app_nil_r. split; [|done].
    eexists. split; [done|]. intros s. by rewrite elem_of_list_to_set.
  - pose proof (recursiveLoop_spec E config subdomains 0
                  (list_to_set subdomains) w) as Hloop.
    destruct (recursiveLoop _ _ _ _ _ _ _) as [all' w'].
    destruct Hloop as (Hsub & Htr & _). rewrite Nat.sub_0_r in Htr.
    split; [|done].
    exists all'. split; [done|].
    intros s Hs. apply Hsub. by rewrite elem_of_list_to_set.
Qed.

Lemma postProcess_spec E domain config (resultMap : ResultMap) w :
  let '(subdomains, w') := postProcess E domain config resultMap w in
  NoDup subdomains
  ∧ (subdomains = commonSubdomains domain
     ∨ (Sorted String.le subdomains
        ∧ (¬ recursionEnabled config →
           Forall (λ s, EqualFold E s domain = false) subdomains))).
Proof.
  unfold postProcess. unfold_M.
  destruct (Recursive config
            && bool_decide (0 < length (collectSubdomains E domain resultMap))%nat
            && bool_decide (1 < MaxDepth config)) eqn:Hcond.
  - pose proof (recursivePass_spec E config
                  (collectSubdomains E domain resultMap) w) as Hpass.
    destruct (recursivePass _ _ _ _) as [result w'].
    destruct Hpass as [(all' & -> & _) _].
    case_length_zero Hlen.
    + apply length_zero_iff_nil in Hlen. rewrite Hlen. simpl.
      split; [apply commonSubdomains_NoDup | by left].
    + split; [apply sort_Strings_NoDup, NoDup_elements|].
      right. split; [apply sort_Strings_Sorted|].
      intros Hno. destruct Hno.
      apply andb_true_iff in Hcond as [Hcond Hdepth].
      apply andb_true_iff in Hcond as [Hrec _].
      split; [done | by apply bool_decide_eq_true in Hdepth].
  - case_length_zero Hlen.
    + apply length_zero_iff_nil in Hlen. rewrite Hlen. simpl.
      split; [apply commonSubdomains_NoDup | by left].
    + split; [apply collectSubdomains_NoDup|].
      right. split; [apply sort_Strings_Sorted|].
      intros _. apply Forall_forall. intros s Hs.
      by apply collectSubdomains_elem_of in Hs as [? _].
Qed.

(** [RunEnumeration] once the retry loop has ended without an error. *)
Lemma RunEnumeration_after_retry
    E ctx domain config w ctx' w0 (resultMap : ResultMap) w1 :
  NewRunner E (runnerOpts config) = None →
  deriveCtx ctx config w = (ctx', w0) →
  retryLoop E (runnerOpts config) ctx' domain maxRetries 1 ∅ None w0
  = ((resultMap, None), w1) →
  RunEnumeration E ctx domain config w
  = let '(subdomains, w2) := postProcess E domain config resultMap w1 in
    (inr subdomains, w2).
Proof.
  intros Hnew Hctx Hretry. unfold RunEnumeration. rewrite Hnew.
  unfold_M. rewrite Hctx, Hretry.
  by destruct (postProcess _ _ _ _ _).
Qed.

(** A list is returned only out of [postProcess]. *)
Lemma RunEnumeration_inr E ctx domain config w subdomains w' :
  RunEnumeration E ctx domain config w = (inr subdomains, w') →
  ∃ (resultMap : ResultMap) w1,
    postProcess E domain config resultMap w1 = (subdomains, w').
Proof.
  unfold RunEnumeration. destruct (NewRunner E _); [done|].
  unfold_M. destruct (deriveCtx _ _ _) as [ctx' w0].
  destruct (retryLoop _ _ _ _ _ _ _ _ _) as [[resultMap [err|]] w1]; [done|].
  destruct (postProcess _ _ _ _ _) as [l w2] eqn:Hpost.
  intros [= <- <-]. eauto.
Qed.

(** Against C3 as stated: when the provider finds nothing, the list of
    suggestions is returned in the order of [commonPrefixes], which is not
    sorted; when a recursive probe names the parent domain, the queried
    domain is in the result; two keys that differ in case only are both
    returned. *)
Lemma result_list_counterexamples :
  ((RunEnumeration (exampleEnv nothingFound neverFires) callerCtx
      "example.com" defaultConfig world0).1
   = inr ["www.example.com"; "mail.example.com"; "api.example.com";
          "dev.example.com"; "blog.example.com"; "shop.example.com";
          "app.example.com"; "support.example.com"; "help.example.com";
          "portal.example.com"]
   ∧ ¬ String.le "www.example.com" "mail.example.com")
  ∧ ((RunEnumeration (exampleEnv namesParent neverFires) callerCtx
        "example.com" recursiveConfig world0).1
     = inr ["a.example.com"; "b.a.example.com"; "example.com"]
     ∧ EqualFold_ascii "example.com" "example.com" = true)
  ∧ ((RunEnumeration (exampleEnv mixedCase neverFires) callerCtx
        "example.com" defaultConfig world0).1
     = inr ["A.example.com"; "a.example.com"]
     ∧ EqualFold_ascii "A.example.com" "a.example.com" = true).
Proof.
  split; [|split]; (split; [by vm_compute|]); [|by vm_compute..].
  intros Hle. by vm_compute in Hle.
Qed.

(** C3, amended: a list that [RunEnumeration] returns has no two equal
    entries (entries that differ in case only are distinct); it is the list
    of suggestions, in its fixed order, or it is sorted; and when the
    recursive pass is not enabled and the list is not the list of
    suggestions, no entry equals the queried domain up to case. *)
Theorem RunEnumeration_result_shape E ctx domain config w subdomains w' :
  RunEnumeration E ctx domain config w = (inr subdomains, w') →
  NoDup subdomains
  ∧ (subdomains = commonSubdomains domain
     ∨ (Sorted String.le subdomains
        ∧ (¬ recursionEnabled config →
           Forall (λ s, EqualFold E s domain = false) subdomains))).
Proof.
  intros Hrun. apply RunEnumeration_inr in Hrun as (resultMap & w1 & Hpost).
  pose proof (postProcess_spec E domain config resultMap w1) as Hspec.
  by rewrite Hpost in Hspec.
Qed.

Lemma RunEnumeration_result_shape_witness :
  NoDup ["A.example.com"; "a.example.com"]
  ∧ (["A.example.com"; "a.example.com"] = commonSubdomains "example.com"
     ∨ (Sorted String.le ["A.example.com"; "a.example.com"]
        ∧ (¬ recursionEnabled defaultConfig →
           Forall (λ s, EqualFold_ascii s "example.com" = false)
             ["A.example.com"; "a.example.com"]))).
Proof.
  apply (RunEnumeration_result_shape (exampleEnv mixedCase neverFires)
           callerCtx "example.com" defaultConfig world0 _
           (RunEnumeration (exampleEnv mixedCase neverFires) callerCtx
              "example.com" defaultConfig world0).2).
  by vm_compute.
Defined.

(** ** The orchestrator: the retry loop *)

(** One iteration of the retry loop. *)
Lemma retryLoop_unfold E opts ctx domain remaining attempt
    (resultMap : ResultMap) enumErr w :
  retryLoop E opts ctx domain (S remaining) attempt resultMap enumErr w
  = let r := provider E (now w) ctx domain opts in
    let w1 := mkWorld (next_ctx w) (trace w ++ [EvEnumerate ctx domain opts]) in
    if bool_decide (r.2 = None) && bool_decide (0 < size r.1)%nat
    then (r, w1)
    else
      match ctxErrAt (sched E) (now w1) ctx with
      | Some ctxErr =>
          retryLoop E opts ctx domain remaining (S attempt) r.1
            (Some (default ctxErr r.2)) w1
      | None =>
          retryLoop E opts ctx domain remaining (S attempt) r.1 r.2
            (if bool_decide (attempt < maxRetries)%nat
             then mkWorld (next_ctx w1) (trace w1 ++ [EvSleep (2 * time_Second)])
             else w1)
      end.
Proof.
  simpl. unfold_M. unfold EnumerateSingleDomainWithCtx, ctxErr, Sleep.
  destruct (provider E (now w) ctx domain opts) as [rm err]. simpl.
  destruct (bool_decide (err = None) && bool_decide (0 < size rm)%nat);
    [done|].
  destruct (ctxErrAt _ _ _); [by destruct err|].
  by case_bool_decide.
Qed.

(** C4: when the runner can be built, the provider answers every attempt
    with no result and no error, and the context is never done, the
    orchestrator makes its three attempts with a pause after the first and
    the second and returns, without an error, the ten suggestions: www, mail,
    api, dev, blog, shop, app, support, help and portal, each followed by a
    dot and the queried domain, in this order. *)
Theorem nothing_found_yields_suggestions E ctx domain config w :
  NewRunner E (runnerOpts config) = None →
  (∀ t c, provider E t c domain (runnerOpts config) = (∅, None)) →
  (∀ t, ctxErrAt (sched E) t (deriveCtx ctx config w).1 = None) →
  ∃ w',
    RunEnumeration E ctx domain config w
    = (inr ["www." +:+ domain; "mail." +:+ domain; "api." +:+ domain;
            "dev." +:+ domain; "blog." +:+ domain; "shop." +:+ domain;
            "app." +:+ domain; "support." +:+ domain; "help." +:+ domain;
            "portal." +:+ domain],
       w')
    ∧ trace w'
      = let attempt :=
          EvEnumerate (deriveCtx ctx config w).1 domain (runnerOpts config) in
        trace w ++ [attempt; EvSleep (2 * time_Second);
                    attempt; EvSleep (2 * time_Second); attempt].
Proof.
  intros Hnew Hprov Hctx.
  destruct (deriveCtx ctx config w) as [ctx' w0] eqn:Hderive. simpl in Hctx.
  assert (trace w0 = trace w) as Htrace.
  { by rewrite <- (deriveCtx_trace ctx config w), Hderive. }
  assert (∃ w1,
            retryLoop E (runnerOpts config) ctx' domain maxRetries 1 ∅ None w0
            = ((∅, None), w1)
            ∧ trace w1
              = trace w0
                ++ [EvEnumerate ctx' domain (runnerOpts config);
                    EvSleep (2 * time_Second);
                    EvEnumerate ctx' domain (runnerOpts config);
                    EvSleep (2 * time_Second);
                    EvEnumerate ctx' domain (runnerOpts config)])
    as (w1 & Hretry & Htr1).
  { unfold maxRetries.
    do 3 (rewrite retryLoop_unfold; cbv zeta; rewrite Hprov, Hctx;
          cbn [fst snd]; rewrite map_size_empty;
          rewrite (bool_decide_eq_false_2 (0 < 0)%nat) by lia;
          rewrite andb_false_r; simpl bool_decide; cbv iota).
    eexists. split; [reflexivity|]. simpl. by rewrite <- !app_assoc. }
  rewrite (RunEnumeration_after_retry _ _ _ _ _ _ _ _ _ Hnew Hderive Hretry).
  unfold postProcess. rewrite collectSubdomains_empty. simpl.
  rewrite andb_false_r. unfold_M. simpl.
  eexists. split; [reflexivity|]. simpl. by rewrite Htr1, Htrace.
Qed.

Lemma nothing_found_yields_suggestions_witness :
  ∃ w',
    RunEnumeration (exampleEnv nothingFound neverFires) callerCtx
      "example.com" defaultConfig world0
    = (inr ["www.example.com"; "mail.example.com"; "api.example.com";
            "dev.example.com"; "blog.example.com"; "shop.example.com";
            "app.example.com"; "support.example.com"; "help.example.com";
            "portal.example.com"],
       w')
    ∧ length (trace w') = 5%nat.
Proof.
  destruct (nothing_found_yields_suggestions
              (exampleEnv nothingFound neverFires) callerCtx "example.com"
              defaultConfig world0)
    as (w' & Hrun & Htrace); [reflexivity | reflexivity | reflexivity |].
  exists w'. split; [exact Hrun | by rewrite Htrace].
Defined.

(** With a context that is done from now on and a provider that never
    answers with a result and no error, the loop still makes all of its
    attempts, one right after the other, and ends with an error. *)
Lemma retryLoop_done_context E opts ctx domain w :
  (∀ t, (now w ≤ t)%nat → ctxErrAt (sched E) t ctx ≠ None) →
  (∀ t, (provider E t ctx domain opts).2 ≠ None
        ∨ size (provider E t ctx domain opts).1 = 0%nat) →
  ∃ resultMap err w',
    retryLoop E opts ctx domain maxRetries 1 ∅ None w
    = ((resultMap, Some err), w')
    ∧ next_ctx w' = next_ctx w
    ∧ trace w'
      = trace w ++ [EvEnumerate ctx domain opts; EvEnumerate ctx domain opts;
                    EvEnumerate ctx domain opts].
Proof.
  intros Hdone Hfail. unfold maxRetries.
  assert (∀ t, bool_decide ((provider E t ctx domain opts).2 = None)
               && bool_decide (0 < size (provider E t ctx domain opts).1)%nat
               = false) as Hcond.
  { intros t. destruct (Hfail t) as [Herr|Hsize].
    - by rewrite (bool_decide_eq_false_2 _ Herr).
    - rewrite Hsize, (bool_decide_eq_false_2 (0 < 0)%nat) by lia.
      apply andb_false_r. }
  do 3 (rewrite retryLoop_unfold; cbv zeta; rewrite Hcond;
        match goal with
        | |- context [ctxErrAt (sched E) ?t ctx] =>
            destruct (ctxErrAt (sched E) t ctx) eqn:?;
            [|exfalso; apply (Hdone t);
              [unfold now; simpl; rewrite ?length_app; simpl; lia | done]]
        end).
  simpl. do 3 eexists. split; [reflexivity|]. simpl.
  split; [done | by rewrite <- !app_assoc].
Qed.

(** The same for [RunEnumeration]: when the caller's context is already done
    at the call and no attempt finds anything, the provider is still called
    three times before the error is returned. *)
Lemma RunEnumeration_done_context E ctx domain config w :
  NewRunner E (runnerOpts config) = None →
  ctxErrAt (sched E) (now w) ctx ≠ None →
  (∀ t c, (provider E t c domain (runnerOpts config)).2 ≠ None
          ∨ size (provider E t c domain (runnerOpts config)).1 = 0%nat) →
  ∃ err w',
    RunEnumeration E ctx domain config w
    = (inl (Errorf_w "enumeration error after 3 attempts: " err), w')
    ∧ trace w'
      = let attempt :=
          EvEnumerate (deriveCtx ctx config w).1 domain (runnerOpts config) in
        trace w ++ [attempt; attempt; attempt].
Proof.
  intros Hnew Hdone Hfail.
  assert (∀ t, (now w ≤ t)%nat →
               ctxErrAt (sched E) t (deriveCtx ctx config w).1 ≠ None) as Hd.
  { intros t Ht. apply deriveCtx_done.
    destruct (ctxErrAt (sched E) (now w) ctx) as [e|] eqn:He; [|done].
    by rewrite (ctxErrAt_mono _ _ _ _ _ Ht He). }
  destruct (deriveCtx ctx config w) as [ctx' w0] eqn:Hderive. simpl in Hd.
  assert (trace w0 = trace w) as Htrace.
  { by rewrite <- (deriveCtx_trace ctx config w), Hderive. }
  destruct (retryLoop_done_context E (runnerOpts config) ctx' domain w0)
    as (resultMap & err & w' & Hretry & _ & Htr);
    [unfold now; by rewrite Htrace | done |].
  unfold RunEnumeration. rewrite Hnew. unfold_M. rewrite Hderive, Hretry.
  exists err, w'. split; [done|]. simpl. by rewrite Htr, Htrace.
Qed.

(** C2, on the code: the caller's context is cancelled before the first
    attempt and the provider finds nothing.  The cancellation error is
    returned, and the provider has been called three times: the [break] of
    the [ctx.Done()] case ends the [select], not the loop. *)
Example cancelled_context_still_retries :
  ctxErrAt (cancelledAt 0) 0 callerCtx = Some context_Canceled
  ∧ RunEnumeration (exampleEnv nothingFound (cancelledAt 0)) callerCtx
      "example.com" defaultConfig world0
    = let attempt :=
        EvEnumerate (CtxTimeout callerCtx 60000000000 (Derived 0))
          "example.com" (runnerOpts defaultConfig) in
      (inl (Errorf_w "enumeration error after 3 attempts: " context_Canceled),
       mkWorld 1 [attempt; attempt; attempt]).
Proof. split; by vm_compute. Qed.

(** ** The orchestrator: the frontier of the recursive pass *)

(** C7: when the recursive pass runs on the sorted first-pass list (the
    frontier), the provider is called again for the first ten entries of the
    frontier, one call each and in order (for none if the second runner
    cannot be built), and for nothing else; every entry of the frontier is
    in the list that is returned, those after the tenth included, which are
    not among the entries queried again. *)
Theorem frontier_cap
    E ctx domain config w ctx' w0 (resultMap : ResultMap) w1 :
  NewRunner E (runnerOpts config) = None →
  deriveCtx ctx config w = (ctx', w0) →
  retryLoop E (runnerOpts config) ctx' domain maxRetries 1 ∅ None w0
  = ((resultMap, None), w1) →
  recursionEnabled config →
  collectSubdomains E domain resultMap ≠ [] →
  ∃ result w2,
    RunEnumeration E ctx domain config w = (inr result, w2)
    ∧ trace w2
      = trace w1
        ++ match NewRunner E (recursiveOptsOf config) with
           | Some _ => []
           | None =>
               probeEvents config (next_ctx w1)
                 (take 10 (collectSubdomains E domain resultMap))
           end
    ∧ (∀ s, s ∈ collectSubdomains E domain resultMap → s ∈ result)
    ∧ (∀ s, s ∈ drop 10 (collectSubdomains E domain resultMap) →
         s ∈ result ∧ s ∉ take 10 (collectSubdomains E domain resultMap)).
Proof.
  intros Hnew Hderive Hretry [Hrec Hdepth] Hne.
  rewrite (RunEnumeration_after_retry _ _ _ _ _ _ _ _ _ Hnew Hderive Hretry).
  unfold postProcess.
  set (frontier := collectSubdomains E domain resultMap) in *.
  assert (0 < length frontier)%nat as Hlen.
  { destruct frontier; [done | simpl; lia]. }
  rewrite Hrec, (bool_decide_eq_true_2 _ Hlen), (bool_decide_eq_true_2 _ Hdepth).
  simpl. unfold_M.
  pose proof (recursivePass_spec E config frontier w1) as Hpass.
  destruct (recursivePass E config frontier w1) as [result w2].
  destruct Hpass as [(all' & Hresult & Hall) Htrace].
  assert (∀ s, s ∈ frontier → s ∈ result) as Hin.
  { intros s Hs. rewrite Hresult, sort_Strings_elem_of, elem_of_elements.
    by apply Hall. }
  assert (length result ≠ 0%nat) as Hresult_ne.
  { destruct frontier as [|s frontier']; [done|].
    assert (s ∈ result) as Hs by (apply Hin; left).
    destruct result; [by apply elem_of_nil in Hs | done]. }
  rewrite (bool_decide_eq_false_2 _ Hresult_ne).
  exists result, w2. split; [done|]. split; [done|]. split; [done|].
  intros s Hs. split.
  - apply Hin. by apply (subseteq_drop 10 frontier).
  - intros Htake.
    pose proof (collectSubdomains_NoDup E domain resultMap) as Hnodup.
    fold frontier in Hnodup. rewrite <- (take_drop 10 frontier) in Hnodup.
    apply NoDup_app in Hnodup as (_ & Hdisjoint & _).
    by apply (Hdisjoint s).
Qed.

Lemma frontier_cap_witness :
  ∃ result w2,
    RunEnumeration (exampleEnv twelveFound neverFires) callerCtx
      "example.com" recursiveConfig world0 = (inr result, w2)
    ∧ trace w2
      = [EvEnumerate (CtxTimeout callerCtx 60000000000 (Derived 0))
           "example.com" (runnerOpts recursiveConfig)]
        ++ probeEvents recursiveConfig 1 (take 10 twelve)
    ∧ "s11.example.com" ∈ result
    ∧ "s12.example.com" ∈ result.
Proof.
  destruct (frontier_cap (exampleEnv twelveFound neverFires) callerCtx
              "example.com" recursiveConfig world0
              (CtxTimeout callerCtx 60000000000 (Derived 0))
              (mkWorld 1 [])
              (list_to_map ((λ s, (s, ∅)) <$> twelve))
              (mkWorld 1
                 [EvEnumerate (CtxTimeout callerCtx 60000000000 (Derived 0))
                    "example.com" (runnerOpts recursiveConfig)]))
    as (result & w2 & Hrun & Htrace & Hin & _);
    [reflexivity | reflexivity | | by split | by vm_compute |].
  { unfold maxRetries. rewrite retryLoop_unfold. cbv zeta.
    match goal with
    | |- (if ?c then _ else _) = _ =>
        assert (c = true) as -> by (by vm_compute)
    end.
    reflexivity. }
  assert (collectSubdomains (exampleEnv twelveFound neverFires) "example.com"
            (list_to_map ((λ s, (s, ∅)) <$> twelve)) = twelve) as Hfrontier
    by (by vm_compute).
  rewrite Hfrontier in Htrace, Hin.
  exists result, w2. split; [exact Hrun|]. split; [exact Htrace|].
  split; apply Hin, list_elem_of_In; simpl; tauto.
Defined.

(** ** The contexts of the recursive probes *)

Lemma ctxFire_agree sch sch' c :
  (∀ tag, tag ∈ ctx_nodes c → sch tag = sch' tag) →
  ctxFire sch c = ctxFire sch' c.
Proof.
  induction c as [|parent IH tag|parent IH d tag]; intros Hagree; simpl;
    [done|..];
    (rewrite IH by (intros tag' Htag'; apply Hagree; simpl; by right));
    (rewrite (Hagree tag) by (simpl; by left)); done.
Qed.

Lemma independentOf_other_nodes tag c : tag ∉ ctx_nodes c → independentOf tag c.
Proof.
  intros Hnot sch sch' t Hagree. unfold ctxErrAt.
  rewrite (ctxFire_agree sch sch'); [done|].
  intros tag' Htag'. apply Hagree. by intros ->.
Qed.

Lemma probeEvents_elem_of config n subdomains ev :
  ev ∈ probeEvents config n subdomains →
  ∃ k subdomain,
    ev = EvEnumerate (probeCtx config k) subdomain (recursiveOptsOf config)
    ∧ (n ≤ k)%nat.
Proof.
  revert n. induction subdomains as [|s rest IH]; intros n; simpl.
  - by intros ?%elem_of_nil.
  - intros [->|Hin]%elem_of_cons.
    + by exists n, s.
    + destruct (IH _ Hin) as (k & s' & -> & Hk). exists k, s'. split; [done|lia].
Qed.

(** Against C8 as stated: the caller cancels its context at time 1, after
    the first pass and before the probe of [a.example.com] is issued.  The
    probe runs under a context that is not a descendant of the caller's and
    is not done, neither when the probe is issued nor later. *)
Lemma probe_survives_cancelled_parent :
  (RunEnumeration (exampleEnv namesParent (cancelledAt 1)) callerCtx
     "example.com" recursiveConfig world0).2
  = mkWorld 2
      [EvEnumerate (CtxTimeout callerCtx 60000000000 (Derived 0))
         "example.com" (runnerOpts recursiveConfig);
       EvEnumerate (CtxTimeout Background 30000000000 (Derived 1))
         "a.example.com" (recursiveOptsOf recursiveConfig)]
  ∧ ctxErrAt (cancelledAt 1) 1 callerCtx = Some context_Canceled
  ∧ (External 0 ∉ ctx_nodes (CtxTimeout Background 30000000000 (Derived 1)))
  ∧ ctxErrAt (cancelledAt 1) 1 (CtxTimeout Background 30000000000 (Derived 1))
    = None
  ∧ ctxErrAt (cancelledAt 1) 2 (CtxTimeout Background 30000000000 (Derived 1))
    = None.
Proof.
  split; [by vm_compute|]. split; [by vm_compute|].
  split; [by intros [?|?%elem_of_nil]%elem_of_cons|].
  split; by vm_compute.
Qed.

Lemma probeEvents_lookup config n subdomains i ev :
  probeEvents config n subdomains !! i = Some ev →
  ∃ subdomain,
    subdomains !! i = Some subdomain
    ∧ ev = EvEnumerate (probeCtx config (n + i)) subdomain
             (recursiveOptsOf config).
Proof.
  revert n i. induction subdomains as [|s rest IH]; intros n i; simpl.
  - by rewrite lookup_nil.
  - destruct i as [|i]; simpl.
    + intros [= <-]. exists s. by rewrite Nat.add_0_r.
    + intros Hev. destruct (IH _ _ Hev) as (s' & Hs' & ->).
      exists s'. split; [done|]. by rewrite Nat.add_succ_r.
Qed.

(** The state of the context of a probe is the state of its own node. *)
Lemma probeCtx_own_node config k sch t :
  ctxErrAt sch t (probeCtx config k)
  = match sch (Derived k) with
    | Some (t0, why) => if (t0 <=? t)%nat then Some (cause_error why) else None
    | None => None
    end.
Proof. unfold ctxErrAt, probeCtx. simpl. by destruct (sch (Derived k)). Qed.

(** C8, amended: every recursive probe runs under a context of its own,
    made for it by [WithTimeout] from [context.Background()] with the
    recursive timeout: the probe at position [i] of the pass is made under
    the [i]-th context made since the pass began, and the pass makes one
    context for each probe.  This context is not a descendant of the
    caller's context: it is done exactly when its own node has fired (its
    own deadline), and its state depends on no other node, so cancelling
    the caller's context does not cancel a probe.  Its own node is on the
    path of no context made earlier and of no probe at another position, so
    its deadline expiring cancels neither the caller's context nor a
    sibling. *)
Theorem recursive_probe_contexts E config subdomains w :
  let '(_, w') := recursivePass E config subdomains w in
  ∃ probes,
    trace w' = trace w ++ probes
    ∧ next_ctx w' = (next_ctx w + length probes)%nat
    ∧ ∀ i ev, probes !! i = Some ev →
        ∃ subdomain,
          ev = EvEnumerate
                 (CtxTimeout Background (seconds (recursiveTimeoutOf config))
                    (Derived (next_ctx w + i)))
                 subdomain (recursiveOptsOf config)
          ∧ (∀ sch t,
               ctxErrAt sch t (probeCtx config (next_ctx w + i))
               = match sch (Derived (next_ctx w + i)) with
                 | Some (t0, why) =>
                     if (t0 <=? t)%nat then Some (cause_error why) else None
                 | None => None
                 end)
          ∧ (∀ tag, tag ≠ Derived (next_ctx w + i) →
               independentOf tag (probeCtx config (next_ctx w + i)))
          ∧ (∀ c, madeBefore w c → independentOf (Derived (next_ctx w + i)) c)
          ∧ (∀ k', k' ≠ (next_ctx w + i)%nat →
               independentOf (Derived (next_ctx w + i)) (probeCtx config k'))
          ∧ (∀ j c' subdomain' opts',
               j ≠ i →
               probes !! j = Some (EvEnumerate c' subdomain' opts') →
               independentOf (Derived (next_ctx w + i)) c').
Proof.
  assert (∃ probed,
            trace (recursivePass E config subdomains w).2
            = trace w ++ probeEvents config (next_ctx w) probed
            ∧ next_ctx (recursivePass E config subdomains w).2
              = (next_ctx w + length probed)%nat) as (probed & Htrace & Hn).
  { unfold recursivePass. rewrite take_drop.
    replace (if bool_decide (maxSubdomainsToProcess < length subdomains)%nat
             then subdomains else subdomains) with subdomains
      by (by case_bool_decide).
    unfold_M. destruct (NewRunner E (recursiveOptsOf config)).
    - exists []. simpl. by rewrite app_nil_r, Nat.add_0_r.
    - pose proof (recursiveLoop_spec E config subdomains 0
                    (list_to_set subdomains) w) as Hloop.
      destruct (recursiveLoop _ _ _ _ _ _ _) as [all' w'].
      destruct Hloop as (_ & Htr & Hn). rewrite Nat.sub_0_r in Htr, Hn.
      by exists (take maxSubdomainsToProcess subdomains). }
  destruct (recursivePass E config subdomains w) as [result w'].
  cbn [snd] in *.
  assert (length (probeEvents config (next_ctx w) probed) = length probed)
    as Hlen.
  { clear. generalize (next_ctx w). induction probed as [|s rest IH];
      intros n; simpl; [done | by rewrite IH]. }
  exists (probeEvents config (next_ctx w) probed).
  split; [done|]. split; [by rewrite Hlen|].
  intros i ev Hev.
  destruct (probeEvents_lookup _ _ _ _ _ Hev) as (s & _ & ->).
  exists s. split; [done|]. split; [intros sch t; apply probeCtx_own_node|].
  split; [|split; [|split]].
  - intros tag Htag. apply independentOf_other_nodes. simpl.
    intros [->|?%elem_of_nil]%elem_of_cons; done.
  - intros c Hc. apply independentOf_other_nodes.
    intros Hin. apply Hc in Hin. lia.
  - intros k' Hk'. apply independentOf_other_nodes. simpl.
    intros [[= Heq]|?%elem_of_nil]%elem_of_cons; [by destruct Hk' | done].
  - intros j c' s' o' Hj Hev'.
    destruct (probeEvents_lookup _ _ _ _ _ Hev') as (s'' & _ & [= -> _ _]).
    apply independentOf_other_nodes. simpl.
    intros [[= Heq]|?%elem_of_nil]%elem_of_cons; [lia | done].
Qed.

(** * Further properties of the code *)

(** ** [RunEnumeration]: what it does to the world *)

Lemma reportedSince_app E n tr tr' s :
  reportedSince E n tr s → reportedSince E n (tr ++ tr') s.
Proof.
  intros (t & c & d & o & Hn & Hev & Hs). exists t, c, d, o.
  split; [done|]. split; [|done]. by apply lookup_app_l_Some.
Qed.

Lemma reportedSince_le E n n' tr s :
  (n ≤ n')%nat → reportedSince E n' tr s → reportedSince E n tr s.
Proof.
  intros Hle (t & c & d & o & Hn & Hev & Hs). exists t, c, d, o.
  split; [lia|done].
Qed.

(** The effects of the retry loop: nothing but calls for [domain] under
    [ctx] and two-second pauses, at most [remaining] calls, a pause only
    after an attempt before the last; and the map it ends with is the
    initial one or the provider's answer to one of these calls. *)
Lemma retryLoop_effects E opts ctx domain remaining :
  ∀ attempt (resultMap : ResultMap) enumErr w,
    let r := retryLoop E opts ctx domain remaining attempt resultMap enumErr w in
    next_ctx r.2 = next_ctx w
    ∧ ∃ evs,
        trace r.2 = trace w ++ evs
        ∧ Forall (λ ev, ev = EvEnumerate ctx domain opts
                        ∨ ev = EvSleep (2 * time_Second)) evs
        ∧ (length (filter isEnumerate evs) ≤ remaining)%nat
        ∧ (length (filter isSleep evs) ≤ maxRetries - attempt)%nat
        ∧ (r.1.1 = resultMap
           ∨ ∃ t, (now w ≤ t)%nat
                  ∧ trace r.2 !! t = Some (EvEnumerate ctx domain opts)
                  ∧ r.1.1 = (provider E t ctx domain opts).1).
Proof.
  induction remaining as [|remaining IH]; intros attempt rm e w.
  - simpl. split; [done|]. exists []. rewrite app_nil_r.
    split; [done|]. split; [by constructor|]. rewrite !filter_nil. simpl.
    split; [lia|]. split; [lia|]. by left.
  - cbv zeta. rewrite retryLoop_unfold. cbv zeta.
    set (call := EvEnumerate ctx domain opts).
    set (w1 := {| next_ctx := next_ctx w; trace := trace w ++ [call] |}).
    assert (trace w1 !! now w = Some call) as Hcall.
    { subst w1. simpl. unfold now. by rewrite list_lookup_middle. }
    destruct (bool_decide _ && bool_decide _).
    + simpl. split; [done|]. exists [call].
      split; [done|]. split; [by repeat constructor; left|].
      rewrite !filter_cons, !filter_nil. simpl. split; [lia|]. split; [lia|].
      right. exists (now w). done.
    + destruct (ctxErrAt (sched E) (now w1) ctx) as [ce|].
      * specialize (IH (S attempt) (provider E (now w) ctx domain opts).1
                      (Some (default ce (provider E (now w) ctx domain opts).2))
                      w1).
        cbv zeta in IH.
        destruct IH as (Hn & evs & Htr & Hall & Hcalls & Hsleeps & Hmap).
        split; [done|]. exists (call :: evs).
        split; [by rewrite Htr; subst w1; simpl; rewrite <- app_assoc|].
        split; [constructor; [by left|done]|].
        rewrite !filter_cons. simpl.
        split; [lia|]. split; [lia|].
        right. destruct Hmap as [->|(t & Ht & Hev & ->)].
        -- exists (now w). split; [done|]. split; [|done].
           rewrite Htr. by apply lookup_app_l_Some.
        -- exists t. split; [|done]. subst w1. unfold now in *. simpl in Ht.
           rewrite length_app in Ht. simpl in Ht. lia.
      * set (w2 := if bool_decide (attempt < maxRetries)%nat then _ else w1).
        assert (next_ctx w2 = next_ctx w) as Hn2.
        { subst w2. by case_bool_decide. }
        assert (∃ pause, trace w2 = trace w1 ++ pause
                         ∧ Forall (λ ev, ev = EvSleep (2 * time_Second)) pause
                         ∧ (length pause + (maxRetries - S attempt)
                            ≤ maxRetries - attempt)%nat)
          as (pause & Htr2 & Hpause & Hbudget).
        { subst w2. case_bool_decide.
          - exists [EvSleep (2 * time_Second)].
            split; [done|]. split; [by repeat constructor|].
            unfold maxRetries in *. simpl length. lia.
          - exists []. rewrite app_nil_r. split; [done|]. split; [done|].
            unfold maxRetries. simpl length. lia. }
        specialize (IH (S attempt) (provider E (now w) ctx domain opts).1
                      (provider E (now w) ctx domain opts).2 w2).
        cbv zeta in IH.
        destruct IH as (Hn & evs & Htr & Hall & Hcalls & Hsleeps & Hmap).
        split; [congruence|]. exists (call :: pause ++ evs).
        split.
        { rewrite Htr, Htr2. subst w1. simpl. by rewrite <- !app_assoc. }
        split.
        { constructor; [by left|]. apply Forall_app. split; [|done].
          eapply Forall_impl; [exact Hpause|]. intros ev ->. by right. }
        assert (filter isEnumerate pause = []
                ∧ filter isSleep pause = pause) as [Hpe Hps].
        { clear -Hpause. induction Hpause as [|ev l -> _ [IH1 IH2]]; [done|].
          rewrite !filter_cons. simpl. by rewrite IH1, IH2. }
        split.
        { rewrite filter_cons. simpl. rewrite filter_app, Hpe. simpl. lia. }
        split.
        { rewrite filter_cons. simpl. rewrite filter_app, Hps, length_app.
          lia. }
        right. destruct Hmap as [->|(t & Ht & Hev & ->)].
        -- exists (now w). split; [done|]. split; [|done].
           rewrite Htr, Htr2. by apply lookup_app_l_Some, lookup_app_l_Some.
        -- exists t. split; [|done]. unfold now in *. rewrite Htr2 in Ht.
           subst w1. simpl in Ht. rewrite !length_app in Ht. simpl in Ht. lia.
Qed.

(** Entered with [attempt + remaining = maxRetries + 1], as [RunEnumeration]
    enters it, the loop ends right after a call, and what it ends with is
    decided by that last call: the map is the provider's answer to it, the
    error is the error of that call or, when the call gave neither an error
    nor a result, the state of the context right after it.  The answers to
    the attempts before are dropped. *)
Lemma retryLoop_last E opts ctx domain remaining :
  ∀ attempt (resultMap : ResultMap) enumErr w,
    (attempt + S remaining = S maxRetries)%nat →
    let r := retryLoop E opts ctx domain (S remaining) attempt resultMap
               enumErr w in
    ∃ evs,
      trace r.2 = trace w ++ evs ++ [EvEnumerate ctx domain opts]
      ∧ r.1.1 = (provider E (now w + length evs) ctx domain opts).1
      ∧ r.1.2
        = match (provider E (now w + length evs) ctx domain opts).2 with
          | Some err => Some err
          | None =>
              if bool_decide
                   (0 < size (provider E (now w + length evs) ctx domain
                                opts).1)%nat
              then None
              else ctxErrAt (sched E) (now w + length evs + 1) ctx
          end.
Proof.
  induction remaining as [|remaining IH]; intros attempt rm e w Hinv;
    cbv zeta; rewrite retryLoop_unfold; cbv zeta;
    set (call := EvEnumerate ctx domain opts);
    set (w1 := {| next_ctx := next_ctx w; trace := trace w ++ [call] |});
    (assert (now w1 = (now w + 1)%nat) as Hnow
       by (unfold now; simpl; rewrite length_app; simpl; lia));
    (destruct (provider E (now w) ctx domain opts) as [rm1 err1] eqn:Hcall;
     cbn [fst snd];
     destruct (bool_decide (err1 = None) && bool_decide (0 < size rm1)%nat)
       eqn:Hcond;
     [exists []; simpl; rewrite Nat.add_0_r, Hcall;
      apply andb_true_iff in Hcond as [->%bool_decide_eq_true Hsize];
      cbn [fst snd]; by rewrite Hsize|]);
    (assert (match err1 with
             | Some err => Some err
             | None => if bool_decide (0 < size rm1)%nat then None
                       else ctxErrAt (sched E) (now w1) ctx
             end
             = match ctxErrAt (sched E) (now w1) ctx with
               | Some ce => Some (default ce err1)
               | None => err1
               end) as Hend
       by (destruct err1 as [err|];
           [by destruct (ctxErrAt _ _ _)|];
           rewrite bool_decide_eq_true_2 in Hcond by done;
           simpl in Hcond; rewrite Hcond;
           by destruct (ctxErrAt _ _ _))).
  - rewrite (bool_decide_eq_false_2 (attempt < maxRetries)%nat) by lia.
    exists []. simpl length. rewrite Nat.add_0_r, Hcall, <- Hnow. cbn [fst snd].
    rewrite Hend. by destruct (ctxErrAt (sched E) (now w1) ctx).
  - destruct (ctxErrAt (sched E) (now w1) ctx) as [ce|].
    + destruct (IH (S attempt) rm1 (Some (default ce err1)) w1)
        as (evs & Htr & Hmap & Herr); [lia|].
      exists (call :: evs). simpl length.
      replace (now w + S (length evs))%nat with (now w1 + length evs)%nat
        by lia.
      split; [|done]. rewrite Htr. simpl. by rewrite <- app_assoc.
    + rewrite (bool_decide_eq_true_2 (attempt < maxRetries)%nat) by lia.
      set (w2 := {| next_ctx := next_ctx w1;
                    trace := trace w1 ++ [EvSleep (2 * time_Second)] |}).
      assert (now w2 = (now w + 2)%nat) as Hnow2.
      { unfold now. simpl. rewrite !length_app. simpl. lia. }
      destruct (IH (S attempt) rm1 err1 w2) as (evs & Htr & Hmap & Herr);
        [lia|].
      exists (call :: EvSleep (2 * time_Second) :: evs). simpl length.
      replace (now w + S (S (length evs)))%nat with (now w2 + length evs)%nat
        by lia.
      split; [|done]. rewrite Htr. simpl. by rewrite <- !app_assoc.
Qed.

(** ** [RunEnumeration]: the recursive pass *)

Lemma mergeProbe_elem_of E subdomain (recResultMap : ResultMap)
    (allSubdomains : gset string) s :
  s ∈ mergeProbe E subdomain recResultMap allSubdomains
  ↔ s ∈ allSubdomains
    ∨ (s ∈ dom recResultMap ∧ EqualFold E s subdomain = false).
Proof.
  unfold mergeProbe. rewrite <- (elem_of_elements (dom recResultMap)).
  generalize (elements (dom recResultMap)). intros l.
  revert allSubdomains. induction l as [|r l IH]; intros all; simpl.
  - split; [by left|]. by intros [?|[?%elem_of_nil _]].
  - rewrite IH, elem_of_cons.
    destruct (EqualFold E r subdomain) eqn:Hfold.
    + split.
      * intros [?|[? ?]]; [by left|]. right. split; [by right|done].
      * intros [?|[[->|?] Hs]]; [by left|congruence|]. by right.
    + case_bool_decide as Hin.
      * split.
        -- intros [?|[? ?]]; [by left|]. right. split; [by right|done].
        -- intros [?|[[->|?] Hs]]; [by left|by left|]. by right.
      * rewrite elem_of_union, elem_of_singleton. split.
        -- intros [[->|?]|[? ?]]; [right; split; [by left|done]|by left|].
           right. split; [by right|done].
        -- intros [?|[[->|?] Hs]]; [left; by right|left; by left|by right].
Qed.

Lemma probeEvents_length config n subdomains :
  length (probeEvents config n subdomains) = length subdomains.
Proof.
  revert n. induction subdomains as [|s rest IH]; intros n; simpl; [done|].
  by rewrite IH.
Qed.

Lemma probeEvents_filter config n subdomains :
  filter isEnumerate (probeEvents config n subdomains)
  = probeEvents config n subdomains
  ∧ filter isSleep (probeEvents config n subdomains) = [].
Proof.
  revert n. induction subdomains as [|s rest IH]; intros n; simpl; [done|].
  rewrite !filter_cons. simpl. destruct (IH (S n)) as [-> ->]. done.
Qed.

Lemma recursiveTimeoutOf_ge config : 30 ≤ recursiveTimeoutOf config.
Proof.
  unfold recursiveTimeoutOf. cbv zeta.
  destruct (Z.ltb_spec (effectiveTimeout config `quot` 2) 30); lia.
Qed.

Lemma effectiveTimeout_pos config : 0 < effectiveTimeout config.
Proof.
  unfold effectiveTimeout. destruct (Z.leb_spec (Timeout config) 0); lia.
Qed.

Lemma probeEvents_wellBudgeted config n subdomains :
  Forall wellBudgeted (probeEvents config n subdomains).
Proof.
  revert n. induction subdomains as [|s rest IH]; intros n; simpl;
    constructor; [|done].
  simpl. pose proof (recursiveTimeoutOf_ge config). split; [done|].
  split; [lia|done].
Qed.

Lemma deriveCtx_hasDeadline ctx config w :
  hasDeadline (deriveCtx ctx config w).1 = true.
Proof. unfold deriveCtx. by destruct (hasDeadline ctx) eqn:Hd. Qed.

Lemma deriveCtx_next_ctx ctx config w :
  (next_ctx w ≤ next_ctx (deriveCtx ctx config w).2 ≤ S (next_ctx w))%nat.
Proof. unfold deriveCtx. destruct (hasDeadline ctx); simpl; lia. Qed.

(** One turn of the loop over the frontier. *)
Lemma recursiveLoop_unfold E recursiveOpts recursiveTimeout i subdomain rest
    (allSubdomains : gset string) w :
  (i < maxSubdomainsToProcess)%nat →
  recursiveLoop E recursiveOpts recursiveTimeout i (subdomain :: rest)
    allSubdomains w
  = let recursiveCtx :=
      CtxTimeout Background (seconds recursiveTimeout) (Derived (next_ctx w)) in
    let r := provider E (now w) recursiveCtx subdomain recursiveOpts in
    recursiveLoop E recursiveOpts recursiveTimeout (S i) rest
      (match r.2 with
       | Some _ => allSubdomains
       | None => mergeProbe E subdomain r.1 allSubdomains
       end)
      (mkWorld (S (next_ctx w))
         (trace w ++ [EvEnumerate recursiveCtx subdomain recursiveOpts])).
Proof.
  intros Hi. simpl. rewrite bool_decide_eq_false_2 by lia.
  unfold_M. unfold WithTimeout, EnumerateSingleDomainWithCtx. simpl.
  change (now {| next_ctx := S (next_ctx w); trace := trace w |}) with (now w).
  by destruct (provider E _ _ _ _) as [recResultMap [recErr|]].
Qed.

(** The keys a recursive loop ends with were there at its start or were
    reported in one of its calls. *)
Lemma recursiveLoop_provenance E config subdomains :
  ∀ i (allSubdomains : gset string) w s,
    s ∈ (recursiveLoop E (recursiveOptsOf config) (recursiveTimeoutOf config)
           i subdomains allSubdomains w).1 →
    s ∈ allSubdomains
    ∨ reportedSince E (now w)
        (trace (recursiveLoop E (recursiveOptsOf config)
                  (recursiveTimeoutOf config) i subdomains allSubdomains w).2)
        s.
Proof.
  induction subdomains as [|subdomain rest IH]; intros i all w s.
  - simpl. by left.
  - destruct (decide (i < maxSubdomainsToProcess)%nat) as [Hi|Hi];
      [|simpl; rewrite bool_decide_eq_true_2 by lia; by left].
    rewrite recursiveLoop_unfold by done. cbv zeta.
    set (probe := CtxTimeout Background (seconds (recursiveTimeoutOf config))
                    (Derived (next_ctx w))).
    set (r := provider E (now w) probe subdomain (recursiveOptsOf config)).
    set (all1 := match r.2 with
                 | Some _ => all
                 | None => mergeProbe E subdomain r.1 all
                 end).
    set (w1 := {| next_ctx := S (next_ctx w);
                  trace := trace w ++ [EvEnumerate probe subdomain
                                         (recursiveOptsOf config)] |}).
    assert (now w1 = S (now w)) as Hnow.
    { unfold now. simpl. rewrite length_app. simpl. lia. }
    intros Hs. destruct (IH _ _ _ _ Hs) as [Hall1|Hrep].
    + assert (s ∈ all ∨ s ∈ dom r.1) as [?|Hdom]; [|by left|].
      { subst all1. destruct r.2; [by left|].
        apply mergeProbe_elem_of in Hall1 as [?|[? _]]; [by left|by right]. }
      right.
      pose proof (recursiveLoop_spec E config rest (S i) all1 w1) as Hspec.
      destruct (recursiveLoop _ _ _ _ _ _ _) as [a1 w2].
      destruct Hspec as (_ & Htr & _). simpl. rewrite Htr.
      exists (now w), probe, subdomain, (recursiveOptsOf config).
      split; [done|]. split; [|done].
      apply lookup_app_l_Some. simpl. unfold now.
      by rewrite list_lookup_middle.
    + right. apply (reportedSince_le _ _ (now w1)); [lia|done].
Qed.

(** The effects of [postProcess]: the probes of the recursive pass and
    nothing else. *)
Lemma postProcess_effects E domain config (resultMap : ResultMap) w :
  ∃ probed,
    (length probed ≤ maxSubdomainsToProcess)%nat
    ∧ trace (postProcess E domain config resultMap w).2
      = trace w ++ probeEvents config (next_ctx w) probed
    ∧ next_ctx (postProcess E domain config resultMap w).2
      = (next_ctx w + length probed)%nat.
Proof.
  unfold postProcess. unfold_M.
  destruct (Recursive config && _ && _).
  - unfold recursivePass. rewrite take_drop.
    replace (if bool_decide (maxSubdomainsToProcess
                             < length (collectSubdomains E domain resultMap))%nat
             then collectSubdomains E domain resultMap
             else collectSubdomains E domain resultMap)
      with (collectSubdomains E domain resultMap) by (by case_bool_decide).
    unfold_M. destruct (NewRunner E (recursiveOptsOf config)).
    + exists []. simpl. rewrite app_nil_r, Nat.add_0_r.
      split; [lia|done].
    + pose proof (recursiveLoop_spec E config
                    (collectSubdomains E domain resultMap) 0
                    (list_to_set (collectSubdomains E domain resultMap)) w)
        as Hloop.
      destruct (recursiveLoop _ _ _ _ _ _ _) as [all' w'].
      destruct Hloop as (_ & Htr & Hn). rewrite Nat.sub_0_r in Htr, Hn.
      exists (take maxSubdomainsToProcess
                (collectSubdomains E domain resultMap)).
      simpl. split; [rewrite length_take; lia|done].
  - exists []. simpl. rewrite app_nil_r, Nat.add_0_r. split; [lia|done].
Qed.

(** ** [RunEnumeration]: the parts put together *)

Lemma recursivePass_unfold E config subdomains w :
  recursivePass E config subdomains w
  = match NewRunner E (recursiveOptsOf config) with
    | Some _ => (sort_Strings (elements (list_to_set subdomains : gset string)), w)
    | None =>
        let r := recursiveLoop E (recursiveOptsOf config)
                   (recursiveTimeoutOf config) 0 subdomains
                   (list_to_set subdomains) w in
        (sort_Strings (elements r.1), r.2)
    end.
Proof.
  unfold recursivePass. rewrite take_drop.
  replace (if bool_decide (maxSubdomainsToProcess < length subdomains)%nat
           then subdomains else subdomains) with subdomains
    by (by case_bool_decide).
  unfold_M. destruct (NewRunner E (recursiveOptsOf config)); [done|].
  by destruct (recursiveLoop _ _ _ _ _ _ _).
Qed.

Lemma postProcess_unfold E domain config (resultMap : ResultMap) w :
  postProcess E domain config resultMap w
  = let subdomains := collectSubdomains E domain resultMap in
    let r := if Recursive config
                && bool_decide (0 < length subdomains)%nat
                && bool_decide (1 < MaxDepth config)
             then recursivePass E config subdomains w
             else (subdomains, w) in
    (if bool_decide (length r.1 = 0%nat)
     then r.1 ++ commonSubdomains domain else r.1, r.2).
Proof.
  unfold postProcess. unfold_M. cbv zeta.
  destruct (Recursive config && _ && _); [|done].
  by destruct (recursivePass _ _ _ _).
Qed.

Lemma RunEnumeration_unfold E ctx domain config w :
  NewRunner E (runnerOpts config) = None →
  RunEnumeration E ctx domain config w
  = let d := deriveCtx ctx config w in
    let r := retryLoop E (runnerOpts config) d.1 domain maxRetries 1 ∅ None
               d.2 in
    match r.1.2 with
    | Some err =>
        (inl (Errorf_w "enumeration error after 3 attempts: " err), r.2)
    | None =>
        let p := postProcess E domain config r.1.1 r.2 in (inr p.1, p.2)
    end.
Proof.
  intros Hnew. unfold RunEnumeration. rewrite Hnew. unfold_M. cbv zeta.
  destruct (deriveCtx ctx config w) as [ctx' w0]. cbn [fst snd].
  destruct (retryLoop _ _ _ _ _ _ _ _ _) as [[resultMap [err|]] w1];
    cbn [fst snd].
  - done.
  - by destruct (postProcess _ _ _ _ _).
Qed.

(** The names [postProcess] returns are the suggestions, or each of them is
    a key of the first-pass map or was reported to a probe. *)
Lemma postProcess_provenance E domain config (resultMap : ResultMap) w s :
  s ∈ (postProcess E domain config resultMap w).1 →
  (postProcess E domain config resultMap w).1 = commonSubdomains domain
  ∨ s ∈ dom resultMap
  ∨ reportedSince E (now w) (trace (postProcess E domain config resultMap w).2) s.
Proof.
  rewrite postProcess_unfold. cbv zeta.
  set (subdomains := collectSubdomains E domain resultMap).
  set (r := if Recursive config && bool_decide (0 < length subdomains)%nat
               && bool_decide (1 < MaxDepth config)
            then recursivePass E config subdomains w else (subdomains, w)).
  assert (∀ s, s ∈ r.1 →
               s ∈ dom resultMap ∨ reportedSince E (now w) (trace r.2) s)
    as Hr.
  { intros s'. subst r. destruct (Recursive config && _ && _).
    - rewrite recursivePass_unfold.
      destruct (NewRunner E (recursiveOptsOf config)); cbv zeta; simpl fst;
        simpl snd; rewrite sort_Strings_elem_of, elem_of_elements.
      + rewrite elem_of_list_to_set. intros Hs. left.
        by apply collectSubdomains_elem_of in Hs as [_ ?].
      + intros Hs. apply recursiveLoop_provenance in Hs as [Hs|Hs];
          [|by right].
        apply elem_of_list_to_set in Hs. left.
        by apply collectSubdomains_elem_of in Hs as [_ ?].
    - simpl. intros Hs. left.
      by apply collectSubdomains_elem_of in Hs as [_ ?]. }
  simpl. case_length_zero Hlen.
  - apply length_zero_iff_nil in Hlen. rewrite Hlen. by left.
  - intros Hs. right. by apply Hr.
Qed.

(** The names of the first pass are all returned. *)
Lemma postProcess_complete E domain config (resultMap : ResultMap) w s :
  s ∈ dom resultMap → EqualFold E s domain = false →
  s ∈ (postProcess E domain config resultMap w).1.
Proof.
  intros Hdom Hfold.
  assert (s ∈ collectSubdomains E domain resultMap) as Hs.
  { by apply collectSubdomains_elem_of. }
  rewrite postProcess_unfold. cbv zeta.
  set (subdomains := collectSubdomains E domain resultMap) in *.
  set (r := if Recursive config && bool_decide (0 < length subdomains)%nat
               && bool_decide (1 < MaxDepth config)
            then recursivePass E config subdomains w else (subdomains, w)).
  assert (s ∈ r.1) as Hr.
  { subst r. destruct (Recursive config && _ && _); [|done].
    rewrite recursivePass_unfold.
    destruct (NewRunner E (recursiveOptsOf config)); cbv zeta; simpl fst;
      rewrite sort_Strings_elem_of, elem_of_elements.
    - by apply elem_of_list_to_set.
    - pose proof (recursiveLoop_spec E config
                    (collectSubdomains E domain resultMap) 0
                    (list_to_set (collectSubdomains E domain resultMap)) w)
        as Hspec.
      destruct (recursiveLoop _ _ _ _ _ _ _) as [all' w'].
      destruct Hspec as (Hsub & _). apply Hsub. by apply elem_of_list_to_set. }
  simpl. case_length_zero Hlen; [|done].
  apply length_zero_iff_nil in Hlen. rewrite Hlen in Hr.
  by apply elem_of_nil in Hr.
Qed.

(** The names [postProcess] returns are the suggestions, or each of them is
    a name of the first pass or was reported to a probe. *)
Lemma postProcess_origin E domain config (resultMap : ResultMap) w s :
  s ∈ (postProcess E domain config resultMap w).1 →
  (postProcess E domain config resultMap w).1 = commonSubdomains domain
  ∨ (s ∈ dom resultMap ∧ EqualFold E s domain = false)
  ∨ reportedSince E (now w) (trace (postProcess E domain config resultMap w).2) s.
Proof.
  rewrite postProcess_unfold. cbv zeta.
  set (subdomains := collectSubdomains E domain resultMap).
  set (r := if Recursive config && bool_decide (0 < length subdomains)%nat
               && bool_decide (1 < MaxDepth config)
            then recursivePass E config subdomains w else (subdomains, w)).
  assert (∀ s, s ∈ r.1 →
               s ∈ subdomains ∨ reportedSince E (now w) (trace r.2) s)
    as Hr.
  { intros s'. subst r. destruct (Recursive config && _ && _).
    - rewrite recursivePass_unfold.
      destruct (NewRunner E (recursiveOptsOf config)); cbv zeta; simpl fst;
        simpl snd; rewrite sort_Strings_elem_of, elem_of_elements.
      + rewrite elem_of_list_to_set. by left.
      + intros Hs. apply recursiveLoop_provenance in Hs as [Hs|Hs];
          [|by right].
        apply elem_of_list_to_set in Hs. by left.
    - simpl. by left. }
  simpl. case_length_zero Hlen.
  - apply length_zero_iff_nil in Hlen. rewrite Hlen. by left.
  - intros Hs. right. destruct (Hr s Hs) as [Hin|?]; [left|by right].
    apply collectSubdomains_elem_of in Hin as [? ?]. done.
Qed.

(** What a run does to the world, put together: the calls and pauses of the
    retry loop under the derived context, then the probes. *)
Lemma RunEnumeration_effects E ctx domain config w :
  ∃ primary probed,
    trace (RunEnumeration E ctx domain config w).2
    = trace w ++ primary
      ++ probeEvents config (next_ctx (deriveCtx ctx config w).2) probed
    ∧ Forall (λ ev, ev = EvEnumerate (deriveCtx ctx config w).1 domain
                           (runnerOpts config)
                    ∨ ev = EvSleep (2 * time_Second)) primary
    ∧ (length (filter isEnumerate primary) ≤ maxRetries)%nat
    ∧ (length (filter isSleep primary) ≤ maxRetries - 1)%nat
    ∧ (length probed ≤ maxSubdomainsToProcess)%nat
    ∧ (next_ctx w ≤ next_ctx (RunEnumeration E ctx domain config w).2
       ≤ next_ctx w + 1 + length probed)%nat.
Proof.
  destruct (NewRunner E (runnerOpts config)) as [err|] eqn:Hnew.
  - unfold RunEnumeration. rewrite Hnew. unfold_M. simpl.
    exists [], []. simpl. rewrite app_nil_r.
    split; [done|]. split; [done|]. repeat split; lia.
  - rewrite RunEnumeration_unfold by done. cbv zeta.
    pose proof (deriveCtx_trace ctx config w) as Htr0.
    pose proof (deriveCtx_next_ctx ctx config w) as Hn0.
    destruct (deriveCtx ctx config w) as [ctx' w0]. cbn [fst snd] in *.
    pose proof (retryLoop_effects E (runnerOpts config) ctx' domain maxRetries
                  1 ∅ None w0) as Hretry.
    cbv zeta in Hretry.
    destruct (retryLoop _ _ _ _ _ _ _ _ _) as [[resultMap enumErr] w1].
    cbn [fst snd] in *.
    destruct Hretry as (Hn1 & primary & Htr1 & Hshape & Hcalls & Hsleeps & _).
    destruct enumErr as [err|]; cbn [fst snd].
    + exists primary, []. simpl. rewrite app_nil_r, Htr1, Htr0.
      split; [done|]. split; [done|].
      unfold maxRetries, maxSubdomainsToProcess in *. repeat split; lia.
    + destruct (postProcess_effects E domain config resultMap w1)
        as (probed & Hlen & Htr2 & Hn2).
      exists primary, probed. rewrite Htr2, Hn2, Htr1, Htr0, Hn1.
      split; [by rewrite <- app_assoc|]. split; [done|].
      unfold maxRetries, maxSubdomainsToProcess in *. repeat split; lia.
Qed.

(** ** [RunEnumeration]: bounds, budgets and failure *)

(** X1: whatever the provider and the contexts do, one run only appends to
    the trace, calls the provider at most [maxRetries] +
    [maxSubdomainsToProcess] = 13 times, pauses at most twice and makes at
    most eleven contexts. *)
Theorem RunEnumeration_resource_bounds E ctx domain config w :
  ∃ evs,
    trace (RunEnumeration E ctx domain config w).2 = trace w ++ evs
    ∧ (length (filter isEnumerate evs)
       ≤ maxRetries + maxSubdomainsToProcess)%nat
    ∧ (length (filter isSleep evs) ≤ 2)%nat
    ∧ (next_ctx w ≤ next_ctx (RunEnumeration E ctx domain config w).2
       ≤ next_ctx w + 1 + maxSubdomainsToProcess)%nat.
Proof.
  destruct (RunEnumeration_effects E ctx domain config w)
    as (primary & probed & Htr & _ & Hcalls & Hsleeps & Hprobed & Hn).
  exists (primary
          ++ probeEvents config (next_ctx (deriveCtx ctx config w).2) probed).
  split; [done|].
  destruct (probeEvents_filter config (next_ctx (deriveCtx ctx config w).2)
              probed) as [He Hs].
  rewrite !filter_app, !length_app, He, Hs, probeEvents_length.
  unfold maxRetries, maxSubdomainsToProcess in *. simpl length.
  repeat split; lia.
Qed.

(** X2: every call to the provider is made under a context that has a
    deadline and with options whose [Timeout] is positive and equal to
    their [MaxEnumerationTime]; every pause lasts two seconds.  This holds
    also for a configured timeout that is zero or negative. *)
Theorem RunEnumeration_calls_are_budgeted E ctx domain config w :
  ∃ evs,
    trace (RunEnumeration E ctx domain config w).2 = trace w ++ evs
    ∧ Forall wellBudgeted evs.
Proof.
  destruct (RunEnumeration_effects E ctx domain config w)
    as (primary & probed & Htr & Hshape & _).
  eexists. split; [exact Htr|].
  apply Forall_app. split; [|apply probeEvents_wellBudgeted].
  eapply Forall_impl; [exact Hshape|].
  intros ev [->| ->]; simpl; [|done].
  split; [apply deriveCtx_hasDeadline|].
  split; [apply effectiveTimeout_pos | done].
Qed.

(** X3: when the runner cannot be built, the error of [runner.NewRunner] is
    returned wrapped, no context is made and the provider is not called;
    when it can be built, the run starts with a call for the queried domain
    under the derived context, whatever the state of that context. *)
Theorem runner_failure_or_first_call E ctx domain config w :
  match NewRunner E (runnerOpts config) with
  | Some err =>
      RunEnumeration E ctx domain config w
      = (inl (Errorf_w "failed to create subfinder runner: " err), w)
  | None =>
      ∃ evs,
        trace (RunEnumeration E ctx domain config w).2
        = trace w
          ++ EvEnumerate (deriveCtx ctx config w).1 domain (runnerOpts config)
             :: evs
  end.
Proof.
  destruct (NewRunner E (runnerOpts config)) as [err|] eqn:Hnew.
  - unfold RunEnumeration. by rewrite Hnew.
  - rewrite RunEnumeration_unfold by done. cbv zeta.
    pose proof (deriveCtx_trace ctx config w) as Htr0.
    destruct (deriveCtx ctx config w) as [ctx' w0]. cbn [fst snd] in *.
    unfold maxRetries. rewrite retryLoop_unfold. cbv zeta.
    set (call := EvEnumerate ctx' domain (runnerOpts config)).
    set (w1 := {| next_ctx := next_ctx w0; trace := trace w0 ++ [call] |}).
    assert (∀ r : (ResultMap * option error) * World,
              (∃ evs, trace r.2 = trace w1 ++ evs) →
              ∃ evs,
                trace (match r.1.2 with
                       | Some err =>
                           (inl (Errorf_w "enumeration error after 3 attempts: "
                                   err) : error + list string, r.2)
                       | None =>
                           (inr (postProcess E domain config r.1.1 r.2).1,
                            (postProcess E domain config r.1.1 r.2).2)
                       end).2
                = trace w ++ call :: evs) as Hend.
    { intros r [evs Hevs]. destruct r.1.2.
      - exists evs. simpl. rewrite Hevs. simpl.
        by rewrite Htr0, <- app_assoc.
      - destruct (postProcess_effects E domain config r.1.1 r.2)
          as (probed & _ & Hpost & _).
        eexists. simpl. rewrite Hpost, Hevs. simpl.
        by rewrite Htr0, <- !app_assoc. }
    destruct (bool_decide _ && bool_decide _).
    + apply Hend. exists []. by rewrite app_nil_r.
    + destruct (ctxErrAt _ _ _); apply Hend.
      * destruct (retryLoop_effects E (runnerOpts config) ctx' domain 2 2
                    (provider E (now w0) ctx' domain (runnerOpts config)).1
                    (Some (default e (provider E (now w0) ctx' domain
                                        (runnerOpts config)).2)) w1)
          as (_ & evs & Hevs & _).
        by exists evs.
      * match goal with
        | |- context [retryLoop _ _ _ _ _ _ ?m ?e ?w2] =>
            destruct (retryLoop_effects E (runnerOpts config) ctx' domain 2 2
                        m e w2) as (_ & evs & Hevs & _)
        end.
        rewrite bool_decide_eq_true_2 in Hevs by (unfold maxRetries; lia).
        eexists. rewrite bool_decide_eq_true_2 by (unfold maxRetries; lia).
        rewrite Hevs. simpl. by rewrite <- app_assoc.
Qed.

(** ** [RunEnumeration]: where the returned names come from *)

(** X4: a list that is returned is the list of suggestions, or each of its
    entries was reported by the provider in a call of this run (as a key of
    the map that the call returned). *)
Theorem returned_names_were_reported E ctx domain config w subdomains w' :
  RunEnumeration E ctx domain config w = (inr subdomains, w') →
  subdomains = commonSubdomains domain
  ∨ ∀ s, s ∈ subdomains → reportedSince E (now w) (trace w') s.
Proof.
  destruct (NewRunner E (runnerOpts config)) as [err|] eqn:Hnew;
    [unfold RunEnumeration; by rewrite Hnew|].
  rewrite RunEnumeration_unfold by done. cbv zeta.
  pose proof (deriveCtx_trace ctx config w) as Htr0.
  destruct (deriveCtx ctx config w) as [ctx' w0]. cbn [fst snd] in *.
  destruct (retryLoop_last E (runnerOpts config) ctx' domain 2 1 ∅ None w0)
    as (evs & Htr1 & Hmap & _); [done|].
  change (retryLoop E (runnerOpts config) ctx' domain 3 1 ∅ None w0)
    with (retryLoop E (runnerOpts config) ctx' domain maxRetries 1 ∅ None w0)
    in *.
  destruct (retryLoop _ _ _ _ _ _ _ _ _) as [[resultMap [err|]] w1];
    cbn [fst snd] in *; [done|].
  intros [= <- <-].
  destruct (postProcess_effects E domain config resultMap w1)
    as (probed & _ & Htr2 & _).
  destruct (decide ((postProcess E domain config resultMap w1).1
                    = commonSubdomains domain)) as [?|Hno]; [by left|].
  right. intros s Hs.
  apply postProcess_provenance in Hs as [?|[Hdom|Hrep]]; [done| |].
  - rewrite Htr2, Hmap in *.
    exists (now w0 + length evs)%nat, ctx', domain, (runnerOpts config).
    split; [unfold now; rewrite Htr0; lia|]. split; [|done].
    apply lookup_app_l_Some. rewrite Htr1, app_assoc.
    unfold now. rewrite <- length_app. by rewrite list_lookup_middle.
  - apply (reportedSince_le _ _ (now w1)); [|done].
    unfold now. rewrite Htr1, Htr0, length_app. lia.
Qed.

Lemma returned_names_were_reported_witness :
  ["a.example.com"; "b.a.example.com"; "example.com"]
  = commonSubdomains "example.com"
  ∨ ∀ s, s ∈ ["a.example.com"; "b.a.example.com"; "example.com"] →
         reportedSince (exampleEnv namesParent neverFires) (now world0)
           (trace (RunEnumeration (exampleEnv namesParent neverFires)
                     callerCtx "example.com" recursiveConfig world0).2) s.
Proof.
  apply (returned_names_were_reported (exampleEnv namesParent neverFires)
           callerCtx "example.com" recursiveConfig world0).
  by vm_compute.
Defined.

(** X5: the names of the first pass are those of the last attempt of the
    retry loop, and of it alone.  The run's trace is the events before that
    call, the call, and the probes.  Every key of the map this call
    returned that does not equal the queried domain up to case is in the
    list that is returned, with or without the recursive pass; and the list
    is the list of suggestions, or each of its entries is such a key or was
    reported to a probe, that is, in a call made after the last attempt.
    What earlier attempts reported is not kept. *)
Theorem last_attempt_names_are_returned
    E ctx domain config w subdomains w' :
  RunEnumeration E ctx domain config w = (inr subdomains, w') →
  ∃ before probed,
    trace w'
    = trace w ++ before
      ++ [EvEnumerate (deriveCtx ctx config w).1 domain (runnerOpts config)]
      ++ probeEvents config (next_ctx (deriveCtx ctx config w).2) probed
    ∧ (∀ s,
         s ∈ dom (provider E (now w + length before)
                    (deriveCtx ctx config w).1 domain (runnerOpts config)).1 →
         EqualFold E s domain = false →
         s ∈ subdomains)
    ∧ (subdomains = commonSubdomains domain
       ∨ ∀ s,
           s ∈ subdomains →
           (s ∈ dom (provider E (now w + length before)
                       (deriveCtx ctx config w).1 domain
                       (runnerOpts config)).1
            ∧ EqualFold E s domain = false)
           ∨ reportedSince E (now w + length before + 1) (trace w') s).
Proof.
  destruct (NewRunner E (runnerOpts config)) as [err|] eqn:Hnew;
    [unfold RunEnumeration; by rewrite Hnew|].
  rewrite RunEnumeration_unfold by done. cbv zeta.
  pose proof (deriveCtx_trace ctx config w) as Htr0.
  destruct (deriveCtx ctx config w) as [ctx' w0]. cbn [fst snd] in *.
  destruct (retryLoop_last E (runnerOpts config) ctx' domain 2 1 ∅ None w0)
    as (evs & Htr1 & Hmap & _); [done|].
  pose proof (retryLoop_effects E (runnerOpts config) ctx' domain 3 1 ∅ None
                w0) as (Hn1 & _).
  change (retryLoop E (runnerOpts config) ctx' domain 3 1 ∅ None w0)
    with (retryLoop E (runnerOpts config) ctx' domain maxRetries 1 ∅ None w0)
    in *.
  destruct (retryLoop _ _ _ _ _ _ _ _ _) as [[resultMap [err|]] w1];
    cbn [fst snd] in *; [done|].
  intros [= <- <-].
  destruct (postProcess_effects E domain config resultMap w1)
    as (probed & _ & Htr2 & _).
  assert (now w1 = (now w + length evs + 1)%nat) as Hnow.
  { unfold now. rewrite Htr1, Htr0, !length_app. simpl. lia. }
  assert (resultMap
          = (provider E (now w + length evs) ctx' domain (runnerOpts config)).1)
    as Hlast.
  { rewrite Hmap. unfold now. by rewrite Htr0. }
  exists evs, probed. split; [|split].
  - rewrite Htr2, Htr1, Htr0, Hn1. by rewrite <- !app_assoc.
  - intros s Hdom Hfold. apply postProcess_complete; [|done].
    by rewrite Hlast.
  - destruct (decide ((postProcess E domain config resultMap w1).1
                      = commonSubdomains domain)) as [?|Hno]; [by left|].
    right. intros s Hs.
    apply postProcess_origin in Hs as [?|[Hfirst|Hrep]]; [done| |].
    + left. by rewrite <- Hlast.
    + right. by rewrite <- Hnow.
Qed.

Lemma last_attempt_names_are_returned_witness :
  ∃ before probed,
    trace (RunEnumeration (exampleEnv oldThenNew neverFires) callerCtx
             "example.com" defaultConfig world0).2
    = trace world0 ++ before
      ++ [EvEnumerate (deriveCtx callerCtx defaultConfig world0).1
            "example.com" (runnerOpts defaultConfig)]
      ++ probeEvents defaultConfig
           (next_ctx (deriveCtx callerCtx defaultConfig world0).2) probed
    ∧ (∀ s,
         s ∈ dom (oldThenNew (now world0 + length before)
                    (deriveCtx callerCtx defaultConfig world0).1
                    "example.com" (runnerOpts defaultConfig)).1 →
         EqualFold_ascii s "example.com" = false →
         s ∈ ["new.example.com"])
    ∧ (["new.example.com"] = commonSubdomains "example.com"
       ∨ ∀ s,
           s ∈ ["new.example.com"] →
           (s ∈ dom (oldThenNew (now world0 + length before)
                       (deriveCtx callerCtx defaultConfig world0).1
                       "example.com" (runnerOpts defaultConfig)).1
            ∧ EqualFold_ascii s "example.com" = false)
           ∨ reportedSince (exampleEnv oldThenNew neverFires)
               (now world0 + length before + 1)
               (trace (RunEnumeration (exampleEnv oldThenNew neverFires)
                         callerCtx "example.com" defaultConfig world0).2) s).
Proof.
  apply (last_attempt_names_are_returned (exampleEnv oldThenNew neverFires)
           callerCtx "example.com" defaultConfig world0).
  by vm_compute.
Defined.

(** X6: a list that is returned is never empty. *)
Theorem returned_list_is_not_empty E ctx domain config w subdomains w' :
  RunEnumeration E ctx domain config w = (inr subdomains, w') →
  (0 < length subdomains)%nat.
Proof.
  intros Hrun. apply RunEnumeration_inr in Hrun as (resultMap & w1 & Hpost).
  rewrite postProcess_unfold in Hpost. cbv zeta in Hpost.
  injection Hpost as <- _.
  case_length_zero Hlen; [|lia].
  rewrite length_app. unfold commonSubdomains, commonPrefixes.
  rewrite length_fmap. simpl. lia.
Qed.

Lemma returned_list_is_not_empty_witness :
  (0 < length ["www.example.com"; "mail.example.com"; "api.example.com";
               "dev.example.com"; "blog.example.com"; "shop.example.com";
               "app.example.com"; "support.example.com"; "help.example.com";
               "portal.example.com"])%nat.
Proof.
  apply (returned_list_is_not_empty (exampleEnv nothingFound neverFires)
           callerCtx "example.com" defaultConfig world0 _
           (RunEnumeration (exampleEnv nothingFound neverFires) callerCtx
              "example.com" defaultConfig world0).2).
  by vm_compute.
Defined.

(** X7: when the runner can be built, the outcome of a run is decided by
    the last attempt of the retry loop alone.  The run fails exactly when
    that attempt ended with an error, which is then the error returned, or
    ended with neither an error nor a result while the context was done
    right after it, and then the error of the context is returned.  Errors
    of earlier attempts are forgotten. *)
Theorem outcome_is_decided_by_the_last_attempt E ctx domain config w :
  NewRunner E (runnerOpts config) = None →
  ∃ before probed,
    trace (RunEnumeration E ctx domain config w).2
    = trace w ++ before
      ++ [EvEnumerate (deriveCtx ctx config w).1 domain (runnerOpts config)]
      ++ probeEvents config (next_ctx (deriveCtx ctx config w).2) probed
    ∧ match (RunEnumeration E ctx domain config w).1 with
      | inl e =>
          ∃ err,
            e = Errorf_w "enumeration error after 3 attempts: " err
            ∧ ((provider E (now w + length before) (deriveCtx ctx config w).1
                  domain (runnerOpts config)).2 = Some err
               ∨ ((provider E (now w + length before)
                     (deriveCtx ctx config w).1 domain (runnerOpts config))
                  = (∅, None)
                  ∧ ctxErrAt (sched E) (now w + length before + 1)
                      (deriveCtx ctx config w).1 = Some err))
      | inr _ =>
          (provider E (now w + length before) (deriveCtx ctx config w).1
             domain (runnerOpts config)).2 = None
          ∧ ((provider E (now w + length before) (deriveCtx ctx config w).1
                domain (runnerOpts config)).1 ≠ ∅
             ∨ ctxErrAt (sched E) (now w + length before + 1)
                 (deriveCtx ctx config w).1 = None)
      end.
Proof.
  intros Hnew. rewrite RunEnumeration_unfold by done. cbv zeta.
  pose proof (deriveCtx_trace ctx config w) as Htr0.
  destruct (deriveCtx ctx config w) as [ctx' w0]. cbn [fst snd] in *.
  destruct (retryLoop_last E (runnerOpts config) ctx' domain 2 1 ∅ None w0)
    as (evs & Htr1 & Hmap & Herr); [done|].
  pose proof (retryLoop_effects E (runnerOpts config) ctx' domain 3 1 ∅ None
                w0) as (Hn1 & _).
  change (retryLoop E (runnerOpts config) ctx' domain 3 1 ∅ None w0)
    with (retryLoop E (runnerOpts config) ctx' domain maxRetries 1 ∅ None w0)
    in *.
  destruct (retryLoop _ _ _ _ _ _ _ _ _) as [[resultMap enumErr] w1].
  cbn [fst snd] in *. unfold now in *. rewrite Htr0 in *.
  destruct (provider E (length (trace w) + length evs) ctx' domain
              (runnerOpts config)) as [rm1 err1] eqn:Hcall.
  cbn [fst snd] in *. subst resultMap.
  destruct enumErr as [err|]; cbn [fst snd].
  - exists evs, []. rewrite Hcall. simpl. split; [done|].
    exists err. split; [done|].
    destruct err1 as [e1|]; cbn iota in Herr; [left; cbn [snd]; congruence|].
    right.
    case_bool_decide as Hsize; [done|].
    split; [|done]. f_equal. apply map_size_empty_iff. lia.
  - destruct (postProcess_effects E domain config rm1 w1)
      as (probed & _ & Htr2 & _).
    exists evs, probed. rewrite Hcall. split.
    { rewrite Htr2, Htr1, Hn1. by rewrite <- !app_assoc. }
    destruct err1 as [e1|]; cbn iota in Herr; [done|]. cbn [fst snd].
    split; [done|].
    case_bool_decide as Hsize; [|by right].
    left. cbn [fst]. intros ->. rewrite map_size_empty in Hsize. lia.
Qed.

Lemma outcome_is_decided_by_the_last_attempt_witness :
  ∃ before probed,
    trace (RunEnumeration (exampleEnv alwaysFails neverFires) callerCtx
             "example.com" defaultConfig world0).2
    = trace world0 ++ before
      ++ [EvEnumerate (deriveCtx callerCtx defaultConfig world0).1
            "example.com" (runnerOpts defaultConfig)]
      ++ probeEvents defaultConfig
           (next_ctx (deriveCtx callerCtx defaultConfig world0).2) probed
    ∧ match (RunEnumeration (exampleEnv alwaysFails neverFires) callerCtx
               "example.com" defaultConfig world0).1 with
      | inl e =>
          ∃ err,
            e = Errorf_w "enumeration error after 3 attempts: " err
            ∧ ((alwaysFails (now world0 + length before)
                  (deriveCtx callerCtx defaultConfig world0).1
                  "example.com" (runnerOpts defaultConfig)).2 = Some err
               ∨ ((alwaysFails (now world0 + length before)
                     (deriveCtx callerCtx defaultConfig world0).1
                     "example.com" (runnerOpts defaultConfig))
                  = (∅, None)
                  ∧ ctxErrAt neverFires (now world0 + length before + 1)
                      (deriveCtx callerCtx defaultConfig world0).1 = Some err))
      | inr _ =>
          (alwaysFails (now world0 + length before)
             (deriveCtx callerCtx defaultConfig world0).1
             "example.com" (runnerOpts defaultConfig)).2 = None
          ∧ ((alwaysFails (now world0 + length before)
                (deriveCtx callerCtx defaultConfig world0).1
                "example.com" (runnerOpts defaultConfig)).1 ≠ ∅
             ∨ ctxErrAt neverFires (now world0 + length before + 1)
                 (deriveCtx callerCtx defaultConfig world0).1 = None)
      end.
Proof.
  apply (outcome_is_decided_by_the_last_attempt
           (exampleEnv alwaysFails neverFires) callerCtx "example.com"
           defaultConfig world0).
  reflexivity.
Defined.

(** ** [RunEnumeration]: the two ends of the retry loop *)

(** X8: when every attempt ends with an error and the context is not done,
    the run is three calls with a two-second pause after the first and the
    second; the error returned wraps the error of the third call (time
    passes with every event, so that call is made four events after the
    start), and whatever the attempts reported next to their errors is
    dropped. *)
Theorem every_attempt_fails E ctx domain config w :
  NewRunner E (runnerOpts config) = None →
  (∀ t, (provider E t (deriveCtx ctx config w).1 domain
           (runnerOpts config)).2 ≠ None) →
  (∀ t, ctxErrAt (sched E) t (deriveCtx ctx config w).1 = None) →
  ∃ err w',
    (provider E (now w + 4) (deriveCtx ctx config w).1 domain
       (runnerOpts config)).2 = Some err
    ∧ RunEnumeration E ctx domain config w
      = (inl (Errorf_w "enumeration error after 3 attempts: " err), w')
    ∧ trace w'
      = let call :=
          EvEnumerate (deriveCtx ctx config w).1 domain (runnerOpts config) in
        let pause := EvSleep (2 * time_Second) in
        trace w ++ [call; pause; call; pause; call].
Proof.
  intros Hnew Hfail Hlive.
  rewrite RunEnumeration_unfold by done. cbv zeta.
  pose proof (deriveCtx_trace ctx config w) as Htr0.
  destruct (deriveCtx ctx config w) as [ctx' w0]. cbn [fst snd] in *.
  assert (∀ t, bool_decide ((provider E t ctx' domain (runnerOpts config)).2
                            = None)
               && bool_decide
                    (0 < size (provider E t ctx' domain (runnerOpts config)).1)%nat
               = false) as Hcond.
  { intros t. by rewrite (bool_decide_eq_false_2 _ (Hfail t)). }
  unfold maxRetries.
  do 3 (rewrite retryLoop_unfold; cbv zeta; rewrite Hcond, Hlive).
  rewrite !bool_decide_eq_true_2 by (unfold maxRetries; lia).
  rewrite bool_decide_eq_false_2 by (unfold maxRetries; lia).
  simpl. unfold now. simpl. rewrite !length_app. simpl.
  replace (length (trace w0) + 1 + 1 + 1 + 1)%nat
    with (length (trace w) + 4)%nat by (rewrite Htr0; lia).
  destruct (provider E (length (trace w) + 4) ctx' domain (runnerOpts config)).2
    as [err|] eqn:Herr; [|by destruct (Hfail (length (trace w) + 4)%nat)].
  exists err. eexists. split; [done|]. split; [done|].
  simpl. by rewrite Htr0, <- !app_assoc.
Qed.

Lemma every_attempt_fails_witness :
  ∃ err w',
    (alwaysFails (now world0 + 4) (deriveCtx callerCtx defaultConfig world0).1
       "example.com" (runnerOpts defaultConfig)).2 = Some err
    ∧ RunEnumeration (exampleEnv alwaysFails neverFires) callerCtx
        "example.com" defaultConfig world0
      = (inl (Errorf_w "enumeration error after 3 attempts: " err), w')
    ∧ trace w'
      = let call :=
          EvEnumerate (deriveCtx callerCtx defaultConfig world0).1
            "example.com" (runnerOpts defaultConfig) in
        let pause := EvSleep (2 * time_Second) in
        trace world0 ++ [call; pause; call; pause; call].
Proof.
  apply (every_attempt_fails (exampleEnv alwaysFails neverFires) callerCtx
           "example.com" defaultConfig world0);
    [reflexivity | intros t; discriminate | reflexivity].
Defined.



(** X10: merging the answer to a probe adds to the accumulated set the keys
    of the answer that do not equal the probed subdomain up to case, and
    nothing else; no entry is removed. *)
Theorem mergeProbe_is_union E subdomain (recResultMap : ResultMap)
    (allSubdomains : gset string) :
  mergeProbe E subdomain recResultMap allSubdomains
  = allSubdomains
    ∪ filter (λ s, EqualFold E s subdomain = false) (dom recResultMap).
Proof.
  apply set_eq. intros s.
  rewrite mergeProbe_elem_of, elem_of_union, elem_of_filter. tauto.
Qed.

(** ** The handlers: responses and effects *)

Lemma HandleToolsCall_shape E ctx req providerConfigPath w :
  resp_JSONRPC (HandleToolsCall E ctx req providerConfigPath w).1 = "2.0"
  ∧ resp_ID (HandleToolsCall E ctx req providerConfigPath w).1 = req_ID req
  ∧ ((resp_Result (HandleToolsCall E ctx req providerConfigPath w).1 = None
      ∧ resp_Error (HandleToolsCall E ctx req providerConfigPath w).1 ≠ None
      ∧ (HandleToolsCall E ctx req providerConfigPath w).2 = w)
     ∨ (resp_Error (HandleToolsCall E ctx req providerConfigPath w).1 = None
        ∧ ∃ r, resp_Result (HandleToolsCall E ctx req providerConfigPath w).1
               = Some (ToolCallResultV r))).
Proof.
  unfold HandleToolsCall.
  destruct (UnmarshalToolCallParams E (req_Params req)) as [params|];
    [|by repeat split; try left].
  case_bool_decide; [by repeat split; try left|].
  destruct (tcp_Arguments params !! "domain") as [[| | |domain| |]|];
    try (by repeat split; try left).
  case_bool_decide; [by repeat split; try left|].
  unfold_M. destruct (RunEnumeration _ _ _ _ _) as [outcome w'].
  simpl. split; [done|]. split; [done|]. right. split; [done|]. eauto.
Qed.

(** The two kinds of response. *)
Lemma ProcessSingleRequest_cases E ctx req providerConfigPath w :
  (ProcessSingleRequest E ctx req providerConfigPath w
   = (mkResponse "" None None None, w)
   ∧ req_ID req = None
   ∧ req_Method req ∉ ["initialize"; "tools.list"; "tools.call"])
  ∨ (resp_JSONRPC (ProcessSingleRequest E ctx req providerConfigPath w).1
     = "2.0"
     ∧ resp_ID (ProcessSingleRequest E ctx req providerConfigPath w).1
       = req_ID req
     ∧ (resp_Result (ProcessSingleRequest E ctx req providerConfigPath w).1
        = None
        ↔ resp_Error (ProcessSingleRequest E ctx req providerConfigPath w).1
          ≠ None)).
Proof.
  unfold ProcessSingleRequest.
  set (req' := if bool_decide (req_JSONRPC req = "") then _ else req).
  assert (req_ID req' = req_ID req ∧ req_Method req' = req_Method req)
    as [Hid Hmethod] by (subst req'; by case_bool_decide).
  rewrite Hmethod.
  case_bool_decide as Hinit.
  { right. unfold_M. simpl. unfold HandleInitialize.
    destruct (UnmarshalInitializeParams E _); [case_bool_decide|]; simpl;
      by rewrite Hid. }
  case_bool_decide as Hlist.
  { right. unfold_M. simpl. by rewrite Hid. }
  case_bool_decide as Hcall.
  { right.
    destruct (HandleToolsCall_shape E ctx req' providerConfigPath w)
      as (Hv & Hi & [(Hres & Herr & _)|(Herr & r & Hres)]);
      rewrite Hv, Hi, Hid, Hres; (split; [done|]); (split; [done|]).
    - done.
    - by rewrite Herr. }
  rewrite Hid. destruct (req_ID req) as [id|].
  - right. by unfold_M.
  - left. split; [done|]. split; [done|].
    rewrite !elem_of_cons, elem_of_nil. tauto.
Qed.

(** X11: the response to a request is the empty one (only for a
    notification with a method other than the three known, and then with
    no effect), or it carries version 2.0, the id of the request and
    exactly one of a result and an error. *)
Theorem ProcessSingleRequest_response_shape E ctx req providerConfigPath w :
  (ProcessSingleRequest E ctx req providerConfigPath w
   = (mkResponse "" None None None, w)
   ∧ req_ID req = None
   ∧ req_Method req ∉ ["initialize"; "tools.list"; "tools.call"])
  ∨ (resp_JSONRPC (ProcessSingleRequest E ctx req providerConfigPath w).1
     = "2.0"
     ∧ resp_ID (ProcessSingleRequest E ctx req providerConfigPath w).1
       = req_ID req
     ∧ (resp_Result (ProcessSingleRequest E ctx req providerConfigPath w).1
        = None
        ↔ resp_Error (ProcessSingleRequest E ctx req providerConfigPath w).1
          ≠ None)).
Proof. apply ProcessSingleRequest_cases. Qed.

(** X12: the world changes only under a response that carries the result
    of a tool call: every other response (an error, the result of
    initialize or of tools.list, the empty response) comes without a
    context made and without a call to the provider. *)
Theorem only_tool_results_touch_the_world E ctx req providerConfigPath w :
  (∀ r, resp_Result (ProcessSingleRequest E ctx req providerConfigPath w).1
        ≠ Some (ToolCallResultV r)) →
  (ProcessSingleRequest E ctx req providerConfigPath w).2 = w.
Proof.
  unfold ProcessSingleRequest.
  set (req' := if bool_decide (req_JSONRPC req = "") then _ else req).
  repeat case_bool_decide; try done.
  - intros Hno.
    destruct (HandleToolsCall_shape E ctx req' providerConfigPath w)
      as (_ & _ & [(_ & _ & Hw)|(_ & r & Hres)]); [done|].
    by destruct (Hno r).
  - by destruct (req_ID req').
Qed.

Lemma only_tool_results_touch_the_world_witness :
  (ProcessSingleRequest (exampleEnv nothingFound neverFires) callerCtx
     initialize_notification "" world0).2 = world0.
Proof.
  apply (only_tool_results_touch_the_world
           (exampleEnv nothingFound neverFires) callerCtx
           initialize_notification "" world0).
  intros r. discriminate.
Defined.

(** X13: in a call of the tool, the domain argument is refused with
    Invalid params, before anything is done, exactly when it is absent, not
    a string, or the empty string; nothing else is asked of it. *)
Theorem domain_argument_validation E ctx req providerConfigPath params w :
  UnmarshalToolCallParams E (req_Params req) = Some params →
  tcp_Name params = "enumerateSubdomains" →
  HandleToolsCall E ctx req providerConfigPath w
  = (mkResponse "2.0" (req_ID req) None (Some ErrInvalidParams), w)
  ↔ ∀ domain,
      tcp_Arguments params !! "domain" = Some (JString domain) → domain = "".
Proof.
  intros Hdec Hname. split.
  - intros Hcall domain Hdom.
    destruct (decide (domain = "")) as [|Hne]; [done|].
    rewrite (HandleToolsCall_valid_domain E ctx req providerConfigPath params
               domain w Hdec Hname Hdom Hne) in Hcall.
    by destruct (RunEnumeration _ _ _ _ _).
  - intros Hbad. unfold HandleToolsCall. rewrite Hdec, Hname. simpl.
    destruct (tcp_Arguments params !! "domain") as [[| | |domain| |]|];
      try done.
    by rewrite (Hbad domain eq_refl).
Qed.

Lemma domain_argument_validation_witness :
  HandleToolsCall (exampleEnv nothingFound neverFires) callerCtx
    (mkRequest "2.0" (Some "1") "tools.call" json_call_plain) "" world0
  = (mkResponse "2.0" (Some "1") None (Some ErrInvalidParams), world0)
  ↔ ∀ domain,
      tcp_Arguments call_params_plain !! "domain" = Some (JString domain) →
      domain = "".
Proof.
  apply (domain_argument_validation (exampleEnv nothingFound neverFires)
           callerCtx (mkRequest "2.0" (Some "1") "tools.call" json_call_plain)
           "" call_params_plain world0); reflexivity.
Defined.

(** ** The handlers: the configuration of a tool call *)

Lemma toolConfig_Recursive providerConfigPath (args : gmap string jvalue) :
  Recursive (toolConfig providerConfigPath args)
  = match args !! "recursive" with Some (JBool recursive) => recursive
    | _ => false end.
Proof.
  unfold toolConfig.
  set (c0 := mkSubfinderConfig providerConfigPath 60 1 "" "" false).
  assert (∀ c, Recursive (withTimeout args c) = Recursive c) as Ht
    by (intros c; unfold withTimeout; by repeat case_match).
  assert (∀ c, Recursive (withMaxDepth args c) = Recursive c) as Hm
    by (intros c; unfold withMaxDepth; by repeat case_match).
  assert (∀ c, Recursive (withSourcesFilter args c) = Recursive c) as Hs
    by (intros c; unfold withSourcesFilter; by repeat case_match).
  assert (∀ c, Recursive (withExcludeSourcesFilter args c) = Recursive c)
    as He by (intros c; unfold withExcludeSourcesFilter; by repeat case_match).
  assert (∀ c, Recursive (withRecursive args c)
               = match args !! "recursive" with
                 | Some (JBool recursive) => recursive
                 | _ => Recursive c
                 end) as Hr
    by (intros c; unfold withRecursive; by repeat case_match).
  by rewrite Hr, He, Hs, Hm, Ht.
Qed.

(** Below 2^63, where the Go specification defines [int(f)], the result is
    at least 2 exactly when [f] is. *)
Lemma float64_to_int_ge_2 (f : float64) :
  (f < inject_Z (2 ^ 63))%Q →
  2 ≤ float64_to_int f ↔ (2 <= f)%Q.
Proof.
  unfold Qlt, Qle, float64_to_int. simpl Qnum. simpl Qden.
  set (n := Qnum f). set (d := Z.pos (Qden f)).
  assert (0 < d) as Hd by (subst d; lia).
  rewrite !Z.mul_1_r. intros Hlt.
  destruct (Z.lt_ge_cases n 0) as [Hneg|Hpos].
  - assert (n `quot` d ≤ 0) as Hq by (apply Z.quot_le_upper_bound; lia).
    split; [|lia]. destruct (_ && _); lia.
  - rewrite Z.quot_div_nonneg by lia.
    assert (0 ≤ n `div` d) as Hq0 by (apply Z.div_pos; lia).
    assert (n `div` d < 2 ^ 63) as Hq1
      by (apply Z.div_lt_upper_bound; lia).
    assert ((- 2 ^ 63 <=? n `div` d) && (n `div` d <? 2 ^ 63) = true) as ->.
    { apply andb_true_iff. split; [apply Z.leb_le | apply Z.ltb_lt]; lia. }
    split.
    + intros Hge. pose proof (Z.mul_div_le n d Hd). nia.
    + intros Hge. apply Z.div_le_lower_bound; lia.
Qed.

(** X14: for a [maxDepth] below 2^63, the range in which Go defines
    [int(maxDepth)], the arguments of a tool call enable the recursive pass
    exactly when [recursive] is the boolean true and [maxDepth] is a number
    that is at least 2.  With [recursive] alone the default depth of 1 keeps
    the pass off; so does a [maxDepth] below 2, such as 1.9. *)
Theorem recursion_needs_depth_two providerConfigPath
    (args : gmap string jvalue) :
  (∀ maxDepth, args !! "maxDepth" = Some (JNumber maxDepth) →
               (maxDepth < inject_Z (2 ^ 63))%Q) →
  recursionEnabled (toolConfig providerConfigPath args)
  ↔ args !! "recursive" = Some (JBool true)
    ∧ ∃ maxDepth, args !! "maxDepth" = Some (JNumber maxDepth)
                  ∧ (2 <= maxDepth)%Q.
Proof.
  intros Hrange.
  unfold recursionEnabled. rewrite toolConfig_Recursive.
  destruct (toolConfig_fields providerConfigPath args) as (_ & -> & _).
  unfold withMaxDepth. split.
  - intros [Hrec Hdepth]. split.
    + destruct (args !! "recursive") as [[|[|]| | | |]|]; done.
    + destruct (args !! "maxDepth") as [[| |f| | |]|]; simpl in Hdepth;
        try lia.
      exists f. split; [done|].
      apply float64_to_int_ge_2; [by apply Hrange|].
      destruct (float64_gt0 f); simpl in Hdepth; lia.
  - intros [-> (f & Hf & Hge)]. split; [done|].
    pose proof (Hrange f Hf) as Hlt. rewrite Hf.
    apply float64_to_int_ge_2 in Hge; [|done].
    assert (float64_gt0 f = true) as ->; [|simpl; lia].
    unfold float64_gt0, float64_to_int in *.
    destruct (Qle_bool f 0) eqn:Hle; [|done].
    apply Qle_bool_iff in Hle. unfold Qle in Hle. simpl in Hle.
    assert (Qnum f ≤ 0) as Hnum by lia.
    assert (Qnum f `quot` Z.pos (Qden f) ≤ 0) as Hq.
    { apply Z.quot_le_upper_bound; lia. }
    destruct (_ && _); lia.
Qed.

Lemma recursion_needs_depth_two_witness :
  recursionEnabled
    (toolConfig "" {[ "domain" := JString "example.com";
                      "recursive" := JBool true;
                      "maxDepth" := JNumber (2 # 1) ]})
  ↔ ({[ "domain" := JString "example.com"; "recursive" := JBool true;
        "maxDepth" := JNumber (2 # 1) ]} : gmap string jvalue) !! "recursive"
    = Some (JBool true)
    ∧ ∃ maxDepth,
        ({[ "domain" := JString "example.com"; "recursive" := JBool true;
            "maxDepth" := JNumber (2 # 1) ]} : gmap string jvalue)
          !! "maxDepth" = Some (JNumber maxDepth)
        ∧ (2 <= maxDepth)%Q.
Proof.
  apply (recursion_needs_depth_two ""
           {[ "domain" := JString "example.com"; "recursive" := JBool true;
              "maxDepth" := JNumber (2 # 1) ]}).
  intros maxDepth Hdepth.
  assert (maxDepth = 2 # 1) as -> by (vm_compute in Hdepth; congruence).
  reflexivity.
Defined.



(** X16: a tool call reads its arguments under six names only: two
    requests with the same id whose params name the same tool and agree on
    [domain], [timeout], [maxDepth], [sourcesFilter], [excludeSourcesFilter]
    and [recursive] get the same response, with the same effects, whatever
    else their arguments hold. *)
Theorem other_arguments_are_ignored
    E ctx req req' providerConfigPath params params' w :
  UnmarshalToolCallParams E (req_Params req) = Some params →
  UnmarshalToolCallParams E (req_Params req') = Some params' →
  req_ID req = req_ID req' →
  tcp_Name params = tcp_Name params' →
  (∀ key, key ∈ ["domain"; "timeout"; "maxDepth"; "sourcesFilter";
                 "excludeSourcesFilter"; "recursive"] →
          tcp_Arguments params !! key = tcp_Arguments params' !! key) →
  HandleToolsCall E ctx req providerConfigPath w
  = HandleToolsCall E ctx req' providerConfigPath w.
Proof.
  intros Hdec Hdec' Hid Hname Hargs.
  assert (toolConfig providerConfigPath (tcp_Arguments params)
          = toolConfig providerConfigPath (tcp_Arguments params')) as Hconfig.
  { unfold toolConfig.
    set (c0 := mkSubfinderConfig providerConfigPath 60 1 "" "" false).
    rewrite (withTimeout_lookup (tcp_Arguments params) (tcp_Arguments params'))
      by (apply Hargs; rewrite !elem_of_cons; tauto).
    rewrite (withMaxDepth_lookup (tcp_Arguments params) (tcp_Arguments params'))
      by (apply Hargs; rewrite !elem_of_cons; tauto).
    rewrite (withSourcesFilter_lookup (tcp_Arguments params)
               (tcp_Arguments params'))
      by (apply Hargs; rewrite !elem_of_cons; tauto).
    rewrite (withExcludeSourcesFilter_lookup (tcp_Arguments params)
               (tcp_Arguments params'))
      by (apply Hargs; rewrite !elem_of_cons; tauto).
    apply withRecursive_lookup, Hargs. rewrite !elem_of_cons. tauto. }
  unfold HandleToolsCall.
  rewrite Hdec, Hdec', Hid, Hname, Hconfig.
  rewrite (Hargs "domain") by (rewrite !elem_of_cons; tauto).
  done.
Qed.

Lemma other_arguments_are_ignored_witness :
  HandleToolsCall verboseEnv callerCtx
    (mkRequest "2.0" (Some "7") "tools.call" json_call_verbose) "" world0
  = HandleToolsCall verboseEnv callerCtx
      (mkRequest "2.0" (Some "7") "tools.call" json_call_plain) "" world0.
Proof.
  apply (other_arguments_are_ignored verboseEnv callerCtx
           (mkRequest "2.0" (Some "7") "tools.call" json_call_verbose)
           (mkRequest "2.0" (Some "7") "tools.call" json_call_plain)
           "" call_params_verbose call_params_plain world0);
    [reflexivity | reflexivity | reflexivity | reflexivity |].
  intros key Hkey.
  repeat (apply elem_of_cons in Hkey as [->|Hkey]; [reflexivity|]).
  by apply elem_of_nil in Hkey.
Defined.

(** X17: the runners of a tool call query all sources unless the call
    names its sources: [All] is off exactly when [sourcesFilter] is a
    string that is not empty, whatever [excludeSourcesFilter] holds; the
    runner of the recursive pass follows the first. *)
Theorem sources_filter_turns_off_all providerConfigPath
    (args : gmap string jvalue) :
  (All (runnerOpts (toolConfig providerConfigPath args)) = false
   ↔ ∃ sourcesFilter,
       args !! "sourcesFilter" = Some (JString sourcesFilter)
       ∧ sourcesFilter ≠ "")
  ∧ All (recursiveOptsOf (toolConfig providerConfigPath args))
    = All (runnerOpts (toolConfig providerConfigPath args)).
Proof.
  split; [|done]. unfold runnerOpts. cbn [All].
  destruct (toolConfig_fields providerConfigPath args) as (_ & _ & -> & _).
  unfold withSourcesFilter. split.
  - destruct (args !! "sourcesFilter") as [[| | |s| |]|]; try done.
    case_bool_decide as Hs; [|done]. intros _. by exists s.
  - intros (s & -> & Hs). rewrite bool_decide_eq_true_2 by done.
    cbn [SourcesFilter]. by destruct (decide (s = "")).
Qed.

(** ** The dispatcher: effects *)

Lemma deriveCtx_with_deadline ctx config w :
  hasDeadline ctx = true → deriveCtx ctx config w = (ctx, w).
Proof. intros Hd. unfold deriveCtx. by rewrite Hd. Qed.

Lemma probeEvents_calledUnder ctx config n subdomains :
  Forall (calledUnder ctx) (probeEvents config n subdomains).
Proof.
  revert n. induction subdomains as [|s rest IH]; intros n; simpl;
    constructor; [|done].
  simpl. right. by exists config, n.
Qed.

(** What one request does to the world. *)
Lemma ProcessSingleRequest_effects E ctx req providerConfigPath w :
  ∃ evs,
    trace (ProcessSingleRequest E ctx req providerConfigPath w).2
    = trace w ++ evs
    ∧ (hasDeadline ctx = true → Forall (calledUnder ctx) evs)
    ∧ (length (filter isEnumerate evs)
       ≤ maxRetries + maxSubdomainsToProcess)%nat
    ∧ (length (filter isSleep evs) ≤ 2)%nat
    ∧ (next_ctx w
       ≤ next_ctx (ProcessSingleRequest E ctx req providerConfigPath w).2
       ≤ next_ctx w + 1 + maxSubdomainsToProcess)%nat.
Proof.
  assert (∃ evs : list event,
            trace w = trace w ++ evs
            ∧ (hasDeadline ctx = true → Forall (calledUnder ctx) evs)
            ∧ (length (filter isEnumerate evs)
               ≤ maxRetries + maxSubdomainsToProcess)%nat
            ∧ (length (filter isSleep evs) ≤ 2)%nat
            ∧ (next_ctx w ≤ next_ctx w
               ≤ next_ctx w + 1 + maxSubdomainsToProcess)%nat) as Hidle.
  { exists []. rewrite app_nil_r. split; [done|]. split; [by constructor|].
    simpl. repeat split; lia. }
  unfold ProcessSingleRequest.
  set (req' := if bool_decide (req_JSONRPC req = "") then _ else req).
  repeat case_bool_decide; try exact Hidle;
    [|by destruct (req_ID req')].
  unfold HandleToolsCall.
  destruct (UnmarshalToolCallParams E (req_Params req')) as [params|];
    [|exact Hidle].
  case_bool_decide; [exact Hidle|].
  destruct (tcp_Arguments params !! "domain") as [[| | |domain| |]|];
    try exact Hidle.
  case_bool_decide; [exact Hidle|].
  unfold_M.
  set (config := toolConfig providerConfigPath (tcp_Arguments params)).
  destruct (RunEnumeration_effects E ctx domain config w)
    as (primary & probed & Htr & Hshape & Hcalls & Hsleeps & Hprobed & Hn).
  destruct (RunEnumeration E ctx domain config w) as [outcome w'].
  cbn [fst snd] in *.
  exists (primary
          ++ probeEvents config (next_ctx (deriveCtx ctx config w).2) probed).
  split; [done|].
  destruct (probeEvents_filter config (next_ctx (deriveCtx ctx config w).2)
              probed) as [He Hs].
  rewrite !filter_app, !length_app, He, Hs, probeEvents_length.
  split.
  { intros Hd. apply Forall_app. split; [|apply probeEvents_calledUnder].
    rewrite (deriveCtx_with_deadline ctx config w Hd) in Hshape.
    eapply Forall_impl; [exact Hshape|].
    intros ev [->| ->]; simpl; [by left|done]. }
  unfold maxRetries, maxSubdomainsToProcess in *. simpl length.
  repeat split; lia.
Qed.

(** What a batch does to the world. *)
Lemma batchLoop_effects E ctx providerConfigPath batchRequest :
  ∀ batchResponse w,
    ∃ evs,
      trace (batchLoop E ctx providerConfigPath batchRequest batchResponse
               w).2
      = trace w ++ evs
      ∧ (hasDeadline ctx = true → Forall (calledUnder ctx) evs)
      ∧ (length (filter isEnumerate evs)
         ≤ (maxRetries + maxSubdomainsToProcess) * length batchRequest)%nat
      ∧ (length (filter isSleep evs) ≤ 2 * length batchRequest)%nat
      ∧ (next_ctx w
         ≤ next_ctx (batchLoop E ctx providerConfigPath batchRequest
                       batchResponse w).2
         ≤ next_ctx w
           + (1 + maxSubdomainsToProcess) * length batchRequest)%nat.
Proof.
  induction batchRequest as [|req rest IH]; intros acc w.
  - exists []. simpl. rewrite app_nil_r. split; [done|].
    split; [by constructor|]. repeat split; lia.
  - simpl. unfold_M.
    destruct (ProcessSingleRequest_effects E ctx req providerConfigPath w)
      as (evs1 & Htr1 & Hshape1 & Hcalls1 & Hsleeps1 & Hn1).
    destruct (ProcessSingleRequest E ctx req providerConfigPath w)
      as [resp w1].
    cbn [fst snd] in *.
    match goal with
    | |- context [batchLoop _ _ _ rest ?acc1 w1] =>
        destruct (IH acc1 w1) as (evs2 & Htr2 & Hshape2 & Hcalls2 & Hsleeps2
                                  & Hn2)
    end.
    exists (evs1 ++ evs2). rewrite Htr2, Htr1.
    split; [by rewrite <- app_assoc|].
    split; [intros Hd; apply Forall_app; by auto|].
    rewrite !filter_app, !length_app.
    unfold maxRetries, maxSubdomainsToProcess in *. repeat split; lia.
Qed.

(** X18: a batch of [n] requests calls the provider at most 13 [n] times,
    pauses at most 2 [n] times and makes at most 11 [n] contexts; it only
    appends to the trace. *)
Theorem batch_resource_bounds E ctx providerConfigPath batchRequest w :
  ∃ evs,
    trace (batchLoop E ctx providerConfigPath batchRequest [] w).2
    = trace w ++ evs
    ∧ (length (filter isEnumerate evs) ≤ 13 * length batchRequest)%nat
    ∧ (length (filter isSleep evs) ≤ 2 * length batchRequest)%nat
    ∧ (next_ctx w
       ≤ next_ctx (batchLoop E ctx providerConfigPath batchRequest [] w).2
       ≤ next_ctx w + 11 * length batchRequest)%nat.
Proof.
  destruct (batchLoop_effects E ctx providerConfigPath batchRequest [] w)
    as (evs & Htr & _ & Hcalls & Hsleeps & Hn).
  exists evs. unfold maxRetries, maxSubdomainsToProcess in *.
  repeat split; (done || lia).
Qed.


(** X20: a request that [mcpHandler] refuses is refused before anything is
    done: with a status other than 200 the world is as it was; the status
    is then 405 for a method other than POST, else 415 for a content type
    other than application/json, else 400 for a body that cannot be read.
    Every other request is answered with 200, after one context was made
    for it. *)
Theorem refused_request_has_no_effect E providerConfigPath r w :
  match (mcpHandler E providerConfigPath r w).1 with
  | http_Error _ status =>
      (mcpHandler E providerConfigPath r w).2 = w
      ∧ status
        = (if bool_decide (http_Method r ≠ "POST") then 405
           else if bool_decide (http_ContentType r ≠ "application/json")
           then 415 else 400)
  | http_JSON status _ =>
      status = 200
      ∧ http_Method r = "POST"
      ∧ http_ContentType r = "application/json"
      ∧ is_Some (http_Body r)
      ∧ (next_ctx w < next_ctx (mcpHandler E providerConfigPath r w).2)%nat
  end.
Proof.
  unfold mcpHandler. case_bool_decide as Hm; [done|].
  case_bool_decide as Hc; [done|].
  destruct (http_Body r) as [body|]; [|done].
  unfold_M. unfold WithTimeout.
  set (ctx := CtxTimeout (http_Context r) serverTimeout
                (Derived (next_ctx w))).
  set (w0 := {| next_ctx := S (next_ctx w); trace := trace w |}).
  assert (∀ p : payload * World,
            (S (next_ctx w) ≤ next_ctx p.2)%nat →
            match (let '(a, w') := p in (http_JSON 200 a, w')).1 with
            | http_Error _ status =>
                (let '(a, w') := p in (http_JSON 200 a, w')).2 = w
                ∧ status = 400
            | http_JSON status _ =>
                status = 200
                ∧ http_Method r = "POST"
                ∧ http_ContentType r = "application/json"
                ∧ is_Some (Some body)
                ∧ (next_ctx w
                   < next_ctx (let '(a, w') := p in (http_JSON 200 a, w')).2)%nat
            end) as Hok.
  { intros [a w'] Hn. simpl in *.
    split; [done|]. split; [by destruct (decide (http_Method r = "POST"))|].
    split; [by destruct (decide (http_ContentType r = "application/json"))|].
    split; [by eexists | lia]. }
  apply Hok. unfold dispatch.
  destruct (isBatch body).
  - destruct (UnmarshalBatch E body) as [batchRequest|]; [|simpl; lia].
    unfold_M.
    destruct (batchLoop_effects E ctx providerConfigPath batchRequest [] w0)
      as (evs & _ & _ & _ & _ & Hn).
    destruct (batchLoop _ _ _ _ _ _) as [resps w1]. simpl in *. lia.
  - destruct (UnmarshalRequest E body) as [singleRequest|]; [|simpl; lia].
    unfold_M.
    destruct (ProcessSingleRequest_effects E ctx singleRequest
                providerConfigPath w0) as (evs & _ & _ & _ & _ & Hn).
    destruct (ProcessSingleRequest _ _ _ _ _) as [resp w1]. simpl in *. lia.
Qed.

(** ** The dispatcher: the responses of a batch *)

Lemma ProcessSingleRequest_resp_ID E ctx req providerConfigPath w :
  resp_ID (ProcessSingleRequest E ctx req providerConfigPath w).1 = req_ID req.
Proof.
  destruct (ProcessSingleRequest_cases E ctx req providerConfigPath w)
    as [(-> & -> & _)|(_ & Hid & _)]; done.
Qed.

Lemma batchLoop_responses E ctx providerConfigPath batchRequest :
  ∀ batchResponse w,
    ∃ kept,
      (batchLoop E ctx providerConfigPath batchRequest batchResponse w).1
      = batchResponse ++ kept
      ∧ omap resp_ID kept = omap req_ID batchRequest
      ∧ (length kept ≤ length batchRequest)%nat
      ∧ Forall (λ resp,
                  resp_JSONRPC resp = "2.0"
                  ∧ (resp_Result resp = None ↔ resp_Error resp ≠ None)
                  ∧ (resp_ID resp = None → resp_Error resp ≠ None)) kept.
Proof.
  induction batchRequest as [|req rest IH]; intros acc w.
  - exists []. simpl. by rewrite app_nil_r.
  - simpl. unfold_M.
    pose proof (ProcessSingleRequest_resp_ID E ctx req providerConfigPath w)
      as Hid.
    pose proof (ProcessSingleRequest_cases E ctx req providerConfigPath w)
      as Hcases.
    destruct (ProcessSingleRequest E ctx req providerConfigPath w)
      as [resp w1].
    cbn [fst snd] in *.
    destruct (bool_decide (resp_ID resp ≠ None)
              || bool_decide (resp_Error resp ≠ None)) eqn:Hkeep.
    + destruct (IH (acc ++ [resp]) w1) as (kept & -> & Hids & Hlen & Hall).
      exists (resp :: kept). split; [by rewrite <- app_assoc|].
      split.
      { change (omap resp_ID (resp :: kept))
          with (match resp_ID resp with
                | Some id => id :: omap resp_ID kept
                | None => omap resp_ID kept
                end).
        change (omap req_ID (req :: rest))
          with (match req_ID req with
                | Some id => id :: omap req_ID rest
                | None => omap req_ID rest
                end).
        by rewrite Hid, Hids. }
      split; [simpl; lia|].
      constructor; [|done].
      destruct Hcases as [([= ->] & _)|(Hv & _ & Hone)]; [done|].
      split; [done|]. split; [done|]. intros Hnone.
      apply orb_true_iff in Hkeep as [Hk|Hk];
        apply bool_decide_eq_true in Hk; done.
    + destruct (IH acc w1) as (kept & -> & Hids & Hlen & Hall).
      exists kept. split; [done|].
      apply orb_false_iff in Hkeep as [Hk _].
      apply bool_decide_eq_false in Hk.
      assert (req_ID req = None) as ->.
      { rewrite <- Hid. by destruct (resp_ID resp); [destruct Hk|]. }
      split; [done|]. split; [simpl; lia | done].
Qed.

(** X21: in the answer to a batch, the ids of the responses are the ids of
    the requests that carry one, in the order of the requests: each such
    request is answered exactly once, whatever its method, and no response
    carries an id of its own. *)
Theorem batch_answers_each_id_once E ctx providerConfigPath batchRequest w :
  omap resp_ID (batchLoop E ctx providerConfigPath batchRequest [] w).1
  = omap req_ID batchRequest.
Proof.
  destruct (batchLoop_responses E ctx providerConfigPath batchRequest [] w)
    as (kept & -> & Hids & _).
  done.
Qed.

(** X22: the answer to a batch holds at most one response for each request
    (none for an empty batch), never an empty response: each has version
    2.0 and exactly one of a result and an error, and a response without an
    id carries an error. *)
Theorem batch_holds_no_empty_response E ctx providerConfigPath batchRequest w :
  (length (batchLoop E ctx providerConfigPath batchRequest [] w).1
   ≤ length batchRequest)%nat
  ∧ Forall (λ resp,
              resp_JSONRPC resp = "2.0"
              ∧ (resp_Result resp = None ↔ resp_Error resp ≠ None)
              ∧ (resp_ID resp = None → resp_Error resp ≠ None))
      (batchLoop E ctx providerConfigPath batchRequest [] w).1.
Proof.
  destruct (batchLoop_responses E ctx providerConfigPath batchRequest [] w)
    as (kept & -> & _ & Hlen & Hall).
  done.
Qed.

(** ** [server.MCPHandler] *)

(** X23: [server.MCPHandler] refuses a method other than POST with 405 and
    no effect, and answers every POST with status 200 and one response
    object of version 2.0 that holds exactly one of a result and an error:
    also when the body cannot be read or decoded, when the response cannot
    be encoded, and when the request is a notification. *)
Theorem MCPHandler_answers_every_post E marshalFails r w :
  match (MCPHandler E marshalFails r w).1 with
  | http_Error _ status =>
      status = 405 ∧ http_Method r ≠ "POST"
      ∧ (MCPHandler E marshalFails r w).2 = w
  | http_JSON status body =>
      status = 200 ∧ http_Method r = "POST"
      ∧ ∃ resp,
          body = Single resp
          ∧ resp_JSONRPC resp = "2.0"
          ∧ (resp_Result resp = None ↔ resp_Error resp ≠ None)
  end.
Proof.
  unfold MCPHandler. case_bool_decide as Hm; [done|].
  assert (http_Method r = "POST") as HP
    by (by destruct (decide (http_Method r = "POST"))).
  destruct (http_Body r) as [body|];
    [|simpl; split; [done|]; split; [done|]; by eexists].
  destruct (UnmarshalRequest E body) as [req|];
    [|simpl; split; [done|]; split; [done|]; by eexists].
  unfold_M.
  assert (∀ p : Response * World,
            (resp_Result p.1 = None ↔ resp_Error p.1 ≠ None) →
            match (let '(a, w') := p in
                   (http_JSON 200
                      (Single
                         (if marshalFails
                               (mkResponse "2.0" (resp_ID a) (resp_Result a)
                                  (resp_Error a))
                          then mkResponse "2.0" None None (Some ErrInternal)
                          else mkResponse "2.0" (resp_ID a) (resp_Result a)
                                 (resp_Error a))), w')).1 with
            | http_Error _ status =>
                status = 405 ∧ http_Method r ≠ "POST"
                ∧ (let '(a, w') := p in
                   (http_JSON 200
                      (Single
                         (if marshalFails
                               (mkResponse "2.0" (resp_ID a) (resp_Result a)
                                  (resp_Error a))
                          then mkResponse "2.0" None None (Some ErrInternal)
                          else mkResponse "2.0" (resp_ID a) (resp_Result a)
                                 (resp_Error a))), w')).2 = w
            | http_JSON status body =>
                status = 200 ∧ http_Method r = "POST"
                ∧ ∃ resp,
                    body = Single resp
                    ∧ resp_JSONRPC resp = "2.0"
                    ∧ (resp_Result resp = None ↔ resp_Error resp ≠ None)
            end) as Hok.
  { intros [a w'] Hone. simpl in *. split; [done|]. split; [done|].
    eexists. split; [done|]. by destruct (marshalFails _). }
  apply Hok.
  case_bool_decide.
  { simpl. unfold HandleInitialize.
    destruct (UnmarshalInitializeParams E _); [case_bool_decide|]; done. }
  case_bool_decide; [done|].
  case_bool_decide; [|done].
  unfold WithTimeout.
  match goal with
  | |- context [HandleToolsCall E ?c req "" ?w0] =>
      destruct (HandleToolsCall_shape E c req "" w0)
        as (_ & _ & [(Hres & Herr & _)|(Herr & res & Hres)])
  end; rewrite Hres; [done | by rewrite Herr].
Qed.
